(** * VVD campaign pipeline: a shallow embedding of [vvd_campaign_pipeline.py]

    The pipeline is a sequence of Spark DataFrame transformations over one
    CSV batch.  A DataFrame is embedded as a [list] of rows (a bag: the row
    order carries no meaning unless an [orderBy] fixes it), a nullable column
    as an [option], a grouped aggregation as a function of the rows of one
    group.

    Numbers.  [DateType] is the number of days since 1970-01-01 and is
    embedded as [Z]; [IntegerType] and the [LongType] results of [count] and
    [sum] are embedded as [Z]; [DoubleType] is idealised as the rationals [Q],
    keeping the order of the operations as the source writes them.

    Names.  The script calls [date_sub] and [countDistinct], which its import
    list omits; they are read as the functions of [pyspark.sql.functions]. *)

From Stdlib Require Import ZArith QArith Bool List String Ascii Lia.
From Stdlib Require Import Permutation Sorted.
Import ListNotations.

Local Open Scope Z_scope.

(** ** Nullable columns and SQL aggregates *)

Module Sql.

Definition is_some {A : Type} (x : option A) : bool :=
  match x with Some _ => true | None => false end.

(** The non-null values of a column. *)
Fixpoint values {A : Type} (col : list (option A)) : list A :=
  match col with
  | [] => []
  | Some v :: rest => v :: values rest
  | None :: rest => values rest
  end.

(** [count(col)]: the number of non-null values. *)
Definition count {A : Type} (col : list (option A)) : Z :=
  Z.of_nat (List.length (values col)).

Definition Zsum (l : list Z) : Z := fold_right Z.add 0 l.

Definition Qsum (l : list Q) : Q := fold_right Qplus (0 # 1)%Q l.

(** [sum(col)] on an integer column: null when no value is present. *)
Definition sum (col : list (option Z)) : option Z :=
  match values col with
  | [] => None
  | vs => Some (Zsum vs)
  end.

(** [sum(col)] on a double column. *)
Definition sumQ (col : list (option Q)) : option Q :=
  match values col with
  | [] => None
  | vs => Some (Qsum vs)
  end.

(** [avg(col)] on an integer column: the values are added as doubles and
    divided by their number; null when no value is present. *)
Definition avg (col : list (option Z)) : option Q :=
  match values col with
  | [] => None
  | vs => Some (inject_Z (Zsum vs) / inject_Z (Z.of_nat (List.length vs)))%Q
  end.

Definition avgQ (col : list (option Q)) : option Q :=
  match values col with
  | [] => None
  | vs => Some (Qsum vs / inject_Z (Z.of_nat (List.length vs)))%Q
  end.

(** [max(col)] and [min(col)] on a date column. *)
Definition max (col : list (option Z)) : option Z :=
  match values col with
  | [] => None
  | v :: vs => Some (fold_right Z.max v vs)
  end.

Definition min (col : list (option Z)) : option Z :=
  match values col with
  | [] => None
  | v :: vs => Some (fold_right Z.min v vs)
  end.

(** [datediff(end, start)]: days from [start] to [end]. *)
Definition datediff (e s : option Z) : option Z :=
  match e, s with
  | Some x, Some y => Some (x - y)
  | _, _ => None
  end.

(** [col == n] under three-valued logic. *)
Definition eq_lit (x : option Z) (n : Z) : option bool :=
  match x with
  | Some v => Some (v =? n)
  | None => None
  end.

(** [when(cond, value)] without [otherwise]: null unless [cond] is true. *)
Definition when {A : Type} (cond : option bool) (value : option A) : option A :=
  match cond with
  | Some true => value
  | _ => None
  end.

(** What evaluating an arithmetic expression yields: a (nullable) value,
    or the arithmetic fault that ANSI mode raises. *)
Inductive outcome (A : Type) : Type :=
| Value (v : A)
| DivideByZero.
Arguments Value {A} v.
Arguments DivideByZero {A}.

Definition bind {A B : Type} (m : outcome A) (k : A -> outcome B) : outcome B :=
  match m with
  | Value v => k v
  | DivideByZero => DivideByZero
  end.

(** [a / b] on doubles.  A zero divisor gives null, unless the session
    runs with [spark.sql.ansi.enabled], where it raises. *)
Definition divide (ansi : bool) (a b : option Q) : outcome (option Q) :=
  match a, b with
  | Some x, Some y =>
      if Qeq_bool y (0 # 1) then
        if ansi then DivideByZero else Value None
      else Value (Some (x / y)%Q)
  | _, _ => Value None
  end.

Definition times (a : outcome (option Q)) (k : Q) : outcome (option Q) :=
  bind a (fun v => Value (option_map (fun q => (q * k)%Q) v)).

(** [a + b]: the right operand is evaluated only when the left one is
    not null. *)
Definition plus (a b : outcome (option Q)) : outcome (option Q) :=
  bind a (fun x =>
    match x with
    | None => Value None
    | Some p => bind b (fun y => Value (option_map (fun q => (p + q)%Q) y))
    end).

(** A [LongType] value used as a double operand. *)
Definition to_double (x : option Z) : option Q := option_map inject_Z x.

End Sql.

Import Sql.

(** ** Grouping *)

Section GroupBy.

Context {A K : Type}.
Variable K_eq_dec : forall x y : K, {x = y} + {x <> y}.
Variable key : A -> K.

Definition key_is (k : K) (r : A) : bool :=
  if K_eq_dec (key r) k then true else false.

(** The distinct keys, in order of first occurrence. *)
Fixpoint distinct (ks : list K) : list K :=
  match ks with
  | [] => []
  | k :: rest =>
      k :: filter (fun k' => if K_eq_dec k' k then false else true) (distinct rest)
  end.

(** [groupBy(key)]: one group per distinct key, holding the rows of that
    key.  Null keys compare equal, as in SQL grouping. *)
Definition group_by (rows : list A) : list (K * list A) :=
  map (fun k => (k, filter (key_is k) rows)) (distinct (map key rows)).

End GroupBy.

(** [orderBy]: a stable insertion sort on a boolean order. *)
Section OrderBy.

Context {A : Type}.
Variable leb : A -> A -> bool.

Fixpoint insert_sorted (x : A) (l : list A) : list A :=
  match l with
  | [] => [x]
  | y :: rest => if leb x y then x :: l else y :: insert_sorted x rest
  end.

Fixpoint order_by (l : list A) : list A :=
  match l with
  | [] => []
  | x :: rest => insert_sorted x (order_by rest)
  end.

End OrderBy.

(** ** The deployment batch *)

(** [campaign_schema]: every field is declared nullable. *)
Record Deployment : Type := mkDeployment {
  TACTIC_ID : option string;
  CLIENT_ID : option string;
  CAMPAIGN_ID : option string;
  CAMPAIGN_NAME : option string;
  DEPLOYMENT_DATE : option Z;
  CHANNEL : option string;
  CREATIVE_ID : option string;
  SEGMENT : option string;
  OFFER_TYPE : option string;
  RESPONSE_FLAG : option Z;
  RESPONSE_DATE : option Z;
  CONVERSION_FLAG : option Z;
  CONVERSION_DATE : option Z;
  REVENUE : option Q
}.

Definition option_string_dec (x y : option string) : {x = y} + {x <> y}.
Proof. decide equality. apply string_dec. Defined.

Definition option_Z_dec (x y : option Z) : {x = y} + {x <> y}.
Proof. decide equality. apply Z.eq_dec. Defined.

(** The session.  The builder sets adaptive-execution and partitioning
    options only, so [getOrCreate()] leaves [spark.sql.ansi.enabled] at the
    default of the engine that runs the script: off before Spark 4.0, on
    since.  What divides takes the session as a parameter. *)
Record SessionConf : Type := { spark_sql_ansi_enabled : bool }.

Definition ansi_off : SessionConf := {| spark_sql_ansi_enabled := false |}.
Definition ansi_on : SessionConf := {| spark_sql_ansi_enabled := true |}.

(** [analysis_start_date = date_sub(analysis_end_date, 548)]. *)
Definition analysis_start_date (today : Z) : Z := today - 548.

(** [col.between(lo, hi)]; a null date gives null, which [filter] drops. *)
Definition between (d : option Z) (lo hi : Z) : bool :=
  match d with
  | Some v => (lo <=? v) && (v <=? hi)
  | None => false
  end.

(** [df_deployments]: the CSV rows of the trailing 548 days. *)
Definition df_deployments (today : Z) (csv : list Deployment) : list Deployment :=
  filter (fun r => between (DEPLOYMENT_DATE r) (analysis_start_date today) today) csv.

(** ** 1. Contact frequency *)

(** Ascending order on a nullable date, nulls first. *)
Definition date_leb (x y : option Z) : bool :=
  match x, y with
  | None, _ => true
  | Some _, None => false
  | Some a, Some b => a <=? b
  end.

Definition by_date (r s : Deployment) : bool :=
  date_leb (DEPLOYMENT_DATE r) (DEPLOYMENT_DATE s).

(** [rangeBetween(lo, hi)] over [orderBy("DEPLOYMENT_DATE")]: the frame of
    the current row holds the rows of its partition whose date lies in
    [date + lo, date + hi].  The order column is a date, so the offsets are
    numbers of days.  A row with a null date has the null-dated rows as
    its frame. *)
Definition in_range_frame (lo hi : Z) (cur s : Deployment) : bool :=
  match DEPLOYMENT_DATE cur, DEPLOYMENT_DATE s with
  | Some c, Some d => (c + lo <=? d) && (d <=? c + hi)
  | None, None => true
  | _, _ => false
  end.

(** [count("TACTIC_ID").over(w)] for a range frame [w]. *)
Definition count_over_range (lo hi : Z) (partition : list Deployment)
    (cur : Deployment) : Z :=
  count (map TACTIC_ID (filter (in_range_frame lo hi cur) partition)).

(** [Window.partitionBy("CLIENT_ID").orderBy("DEPLOYMENT_DATE")
    .rangeBetween(start, end)]: the three frames, with their bounds as the
    source writes them. *)
Record RangeFrame : Type := rangeBetween { range_start : Z; range_end : Z }.

Definition window_client_30d : RangeFrame := rangeBetween (- 30 * 86400) 0.
Definition window_client_60d : RangeFrame := rangeBetween (- 60 * 86400) 0.
Definition window_client_90d : RangeFrame := rangeBetween (- 90 * 86400) 0.

Definition count_over (w : RangeFrame) (partition : list Deployment)
    (cur : Deployment) : Z :=
  count_over_range (range_start w) (range_end w) partition cur.

Record ContactFrequency : Type := mkContactFrequency {
  cf_row : Deployment;
  days_since_last_contact : option Z;
  contact_number : Z;
  contacts_last_30d : Z;
  contacts_last_60d : Z;
  contacts_last_90d : Z
}.

(** The scan of one ordered partition: [prev] is the row before the current
    one ([lag(..., 1)]), [n] the current [row_number()]. *)
Fixpoint window_scan (partition : list Deployment) (prev : option Deployment)
    (n : Z) (todo : list Deployment) : list ContactFrequency :=
  match todo with
  | [] => []
  | r :: rest =>
      {| cf_row := r;
         days_since_last_contact :=
           datediff (DEPLOYMENT_DATE r)
                    (match prev with Some p => DEPLOYMENT_DATE p | None => None end);
         contact_number := n;
         contacts_last_30d := count_over window_client_30d partition r - 1;
         contacts_last_60d := count_over window_client_60d partition r - 1;
         contacts_last_90d := count_over window_client_90d partition r - 1 |}
      :: window_scan partition (Some r) (n + 1) rest
  end.

Definition window_rows (ordered : list Deployment) : list ContactFrequency :=
  window_scan ordered None 1 ordered.

(** [partitionBy("CLIENT_ID")]. *)
Definition clients (batch : list Deployment) : list (option string) :=
  distinct option_string_dec (map CLIENT_ID batch).

Definition client_partition (c : option string) (batch : list Deployment)
  : list Deployment :=
  filter (key_is option_string_dec CLIENT_ID c) batch.

(** [window_client = Window.partitionBy("CLIENT_ID").orderBy("DEPLOYMENT_DATE")]
    names the date only: the engine may hand the rows of a partition to
    [lag] and [row_number] in any arrangement that is ascending by date. *)
Definition window_order (partition ordered : list Deployment) : Prop :=
  Permutation partition ordered /\
  StronglySorted (fun r s => by_date r s = true) ordered.

(** An execution of [df_contact_frequency] picks one such arrangement per
    client. *)
Definition contact_frequency_run (batch : list Deployment)
    (out : list ContactFrequency) : Prop :=
  exists parts : list (list Deployment),
    Forall2 (fun c p => window_order (client_partition c batch) p)
            (clients batch) parts /\
    out = flat_map window_rows parts.

(** The execution that keeps rows of equal date in batch order. *)
Definition sort_by_date (partition : list Deployment) : list Deployment :=
  order_by by_date partition.

Definition df_contact_frequency (batch : list Deployment) : list ContactFrequency :=
  flat_map (fun c => window_rows (sort_by_date (client_partition c batch)))
           (clients batch).


(** ** 2. Campaign performance *)

Module Campaign.

Definition key : Type :=
  (option string * option string * option string * option string)%type.

Definition key_dec (x y : key) : {x = y} + {x <> y}.
Proof. repeat decide equality. Defined.

(** [groupBy("CAMPAIGN_ID", "CAMPAIGN_NAME", "CHANNEL", "OFFER_TYPE")]. *)
Definition key_of (r : Deployment) : key :=
  (CAMPAIGN_ID r, CAMPAIGN_NAME r, CHANNEL r, OFFER_TYPE r).

Record row : Type := mkRow {
  group : key;
  total_deployments : Z;
  unique_clients : Z;
  total_responses : option Z;
  total_conversions : option Z;
  total_revenue : option Q;
  avg_revenue_per_deployment : option Q;
  response_rate : outcome (option Q);
  conversion_rate : outcome (option Q);
  response_to_conversion_rate : outcome (option Q);
  avg_days_to_response : option Q;
  avg_days_to_conversion : option Q
}.

(** The column under [avg(when(col("RESPONSE_FLAG") == 1, datediff(...)))]. *)
Definition days_to_response (r : Deployment) : option Z :=
  when (eq_lit (RESPONSE_FLAG r) 1)
       (datediff (RESPONSE_DATE r) (DEPLOYMENT_DATE r)).

Definition days_to_conversion (r : Deployment) : option Z :=
  when (eq_lit (CONVERSION_FLAG r) 1)
       (datediff (CONVERSION_DATE r) (DEPLOYMENT_DATE r)).

(** The [agg] of one group. *)
Definition aggregate (conf : SessionConf) (k : key) (rows : list Deployment) : row :=
  let ansi := spark_sql_ansi_enabled conf in
  let deployments := to_double (Some (count (map TACTIC_ID rows))) in
  let responses := to_double (sum (map RESPONSE_FLAG rows)) in
  let conversions := to_double (sum (map CONVERSION_FLAG rows)) in
  {| group := k;
     total_deployments := count (map TACTIC_ID rows);
     unique_clients :=
       Z.of_nat (List.length (distinct string_dec (values (map CLIENT_ID rows))));
     total_responses := sum (map RESPONSE_FLAG rows);
     total_conversions := sum (map CONVERSION_FLAG rows);
     total_revenue := sumQ (map REVENUE rows);
     avg_revenue_per_deployment := avgQ (map REVENUE rows);
     response_rate := times (divide ansi responses deployments) (100 # 1);
     conversion_rate := times (divide ansi conversions deployments) (100 # 1);
     response_to_conversion_rate :=
       times (divide ansi conversions responses) (100 # 1);
     avg_days_to_response := avg (map days_to_response rows);
     avg_days_to_conversion := avg (map days_to_conversion rows) |}.

End Campaign.

Definition df_campaign_performance (conf : SessionConf)
    (deployments : list Deployment) : list Campaign.row :=
  map (fun g => Campaign.aggregate conf (fst g) (snd g))
      (group_by Campaign.key_dec Campaign.key_of deployments).

(** ** 3. Contact frequency impact *)

Module FrequencyImpact.

(** [revenue_stddev] is a square root and is left out; nothing below reads it. *)
Record row : Type := mkRow {
  bucket : Z;
  deployments_count : Z;
  avg_response_rate : option Q;
  avg_conversion_rate : option Q;
  avg_revenue : option Q
}.

Definition aggregate (k : Z) (rows : list ContactFrequency) : row :=
  {| bucket := k;
     deployments_count := count (map (fun w => TACTIC_ID (cf_row w)) rows);
     avg_response_rate := avg (map (fun w => RESPONSE_FLAG (cf_row w)) rows);
     avg_conversion_rate := avg (map (fun w => CONVERSION_FLAG (cf_row w)) rows);
     avg_revenue := avgQ (map (fun w => REVENUE (cf_row w)) rows) |}.

End FrequencyImpact.

(** [groupBy("contacts_last_30d").agg(...).orderBy("contacts_last_30d")]. *)
Definition df_frequency_impact (contact_frequency : list ContactFrequency)
  : list FrequencyImpact.row :=
  order_by (fun a b => FrequencyImpact.bucket a <=? FrequencyImpact.bucket b)
    (map (fun g => FrequencyImpact.aggregate (fst g) (snd g))
         (group_by Z.eq_dec contacts_last_30d contact_frequency)).

(** ** 4. Client engagement *)

Module Engagement.

Record row : Type := mkRow {
  client : option string;
  total_contacts : Z;
  total_responses : option Z;
  total_conversions : option Z;
  total_revenue : option Q;
  last_contact_date : option Z;
  first_contact_date : option Z;
  response_rate : outcome (option Q);
  conversion_rate : outcome (option Q);
  days_since_last_contact : option Z;
  customer_lifetime_days : option Z;
  engagement_score : outcome (option Q)
}.

(** The [agg] of one group, then the three [withColumn]s.  The score reads
    the two rates as columns of the aggregated frame: a fault in either
    leaves no row to extend. *)
Definition aggregate (conf : SessionConf) (today : Z) (c : option string)
    (rows : list Deployment) : row :=
  let ansi := spark_sql_ansi_enabled conf in
  let contacts := to_double (Some (count (map TACTIC_ID rows))) in
  let rate := divide ansi (to_double (sum (map RESPONSE_FLAG rows))) contacts in
  let conv := divide ansi (to_double (sum (map CONVERSION_FLAG rows))) contacts in
  let last := Sql.max (map DEPLOYMENT_DATE rows) in
  let first := Sql.min (map DEPLOYMENT_DATE rows) in
  {| client := c;
     total_contacts := count (map TACTIC_ID rows);
     total_responses := sum (map RESPONSE_FLAG rows);
     total_conversions := sum (map CONVERSION_FLAG rows);
     total_revenue := sumQ (map REVENUE rows);
     last_contact_date := last;
     first_contact_date := first;
     response_rate := rate;
     conversion_rate := conv;
     days_since_last_contact := datediff (Some today) last;
     customer_lifetime_days := datediff last first;
     engagement_score :=
       bind rate (fun response_rate => bind conv (fun conversion_rate =>
         plus (plus (times (Value response_rate) (3 # 10))
                    (times (Value conversion_rate) (5 # 10)))
              (times (divide ansi (sumQ (map REVENUE rows)) contacts) (2 # 10)))) |}.

End Engagement.

Definition df_client_engagement (conf : SessionConf) (today : Z)
    (deployments : list Deployment) : list Engagement.row :=
  map (fun g => Engagement.aggregate conf today (fst g) (snd g))
      (group_by option_string_dec CLIENT_ID deployments).

(** ** 5. Optimal contact frequency *)

(** [df_deployments.select("TACTIC_ID", "CHANNEL", "RESPONSE_FLAG",
    "CONVERSION_FLAG", "REVENUE")]. *)
Record Outcome : Type := mkOutcome {
  o_TACTIC_ID : option string;
  o_CHANNEL : option string;
  o_RESPONSE_FLAG : option Z;
  o_CONVERSION_FLAG : option Z;
  o_REVENUE : option Q
}.

Definition select_outcome (r : Deployment) : Outcome :=
  {| o_TACTIC_ID := TACTIC_ID r;
     o_CHANNEL := CHANNEL r;
     o_RESPONSE_FLAG := RESPONSE_FLAG r;
     o_CONVERSION_FLAG := CONVERSION_FLAG r;
     o_REVENUE := REVENUE r |}.

(** The join condition [left.TACTIC_ID = right.TACTIC_ID]: a null key
    equals nothing. *)
Definition tactic_matches (w : ContactFrequency) (o : Outcome) : bool :=
  match TACTIC_ID (cf_row w), o_TACTIC_ID o with
  | Some a, Some b => String.eqb a b
  | _, _ => false
  end.

(** [left.join(right, on="TACTIC_ID")]: the default, inner join. *)
Definition join_on_tactic_id (left : list ContactFrequency) (right : list Outcome)
  : list (ContactFrequency * Outcome) :=
  flat_map (fun w => map (pair w) (filter (tactic_matches w) right)) left.

(** The analysis of a query: its column names are resolved when the
    DataFrame is built, before any row is read; a name that no column or
    more than one column of the frame bears is refused. *)
Inductive analysed (A : Type) : Type :=
| Analysed (a : A)
| AnalysisException.
Arguments Analysed {A} a.
Arguments AnalysisException {A}.

Definition and_then {A B : Type} (m : analysed A) (k : A -> analysed B)
  : analysed B :=
  match m with
  | Analysed a => k a
  | AnalysisException => AnalysisException
  end.

(** The column names of the three frames the join involves: the fields of
    [campaign_schema], those and the five [withColumn]s of
    [df_contact_frequency], and the five of the [select]. *)
Definition campaign_schema : list string :=
  ["TACTIC_ID"; "CLIENT_ID"; "CAMPAIGN_ID"; "CAMPAIGN_NAME"; "DEPLOYMENT_DATE";
   "CHANNEL"; "CREATIVE_ID"; "SEGMENT"; "OFFER_TYPE"; "RESPONSE_FLAG";
   "RESPONSE_DATE"; "CONVERSION_FLAG"; "CONVERSION_DATE"; "REVENUE"]%string.

Definition contact_frequency_columns : list string :=
  campaign_schema
  ++ ["days_since_last_contact"; "contact_number"; "contacts_last_30d";
      "contacts_last_60d"; "contacts_last_90d"]%string.

Definition outcome_columns : list string :=
  ["TACTIC_ID"; "CHANNEL"; "RESPONSE_FLAG"; "CONVERSION_FLAG"; "REVENUE"]%string.

Module Optimal.

(** The input of the join a column of the joined frame comes from. *)
Inductive input : Type := LeftInput | RightInput.

(** The columns of [left.join(right, on=key)]: the key once, then the other
    columns of the left input, then the other columns of the right one.
    Equal names from the two inputs are both kept. *)
Definition joined_columns (key : string) (left right : list string)
  : list (string * input) :=
  (key, LeftInput)
  :: map (fun n => (n, LeftInput)) (filter (fun n => negb (String.eqb n key)) left)
  ++ map (fun n => (n, RightInput)) (filter (fun n => negb (String.eqb n key)) right).

(** A column referred to by its name: the one column of that name. *)
Definition resolve (name : string) (columns : list (string * input))
  : analysed input :=
  match filter (fun c => String.eqb (fst c) name) columns with
  | [c] => Analysed (snd c)
  | _ => AnalysisException
  end.

Definition channel_of (i : input) (j : ContactFrequency * Outcome) : option string :=
  match i with
  | LeftInput => CHANNEL (cf_row (fst j))
  | RightInput => o_CHANNEL (snd j)
  end.

Definition response_flag_of (i : input) (j : ContactFrequency * Outcome) : option Z :=
  match i with
  | LeftInput => RESPONSE_FLAG (cf_row (fst j))
  | RightInput => o_RESPONSE_FLAG (snd j)
  end.

Definition conversion_flag_of (i : input) (j : ContactFrequency * Outcome) : option Z :=
  match i with
  | LeftInput => CONVERSION_FLAG (cf_row (fst j))
  | RightInput => o_CONVERSION_FLAG (snd j)
  end.

Definition revenue_of (i : input) (j : ContactFrequency * Outcome) : option Q :=
  match i with
  | LeftInput => REVENUE (cf_row (fst j))
  | RightInput => o_REVENUE (snd j)
  end.

Definition key : Type := (option string * Z)%type.

Definition key_dec (x y : key) : {x = y} + {x <> y}.
Proof. repeat decide equality. Defined.

(** The grouping key, [channel] being the column that "CHANNEL" resolved
    to; contacts_last_30d is a column of the left input only. *)
Definition key_of (channel : input) (j : ContactFrequency * Outcome) : key :=
  (channel_of channel j, contacts_last_30d (fst j)).

(** [revenue_std] is a square root and is left out; nothing below reads it. *)
Record row : Type := mkRow {
  group : key;
  sample_size : Z;
  response_rate : option Q;
  conversion_rate : option Q;
  avg_revenue : option Q
}.

Definition aggregate (response conversion revenue : input) (k : key)
    (rows : list (ContactFrequency * Outcome)) : row :=
  {| group := k;
     sample_size := count (map (fun j => TACTIC_ID (cf_row (fst j))) rows);
     response_rate := avg (map (response_flag_of response) rows);
     conversion_rate := avg (map (conversion_flag_of conversion) rows);
     avg_revenue := avgQ (map (revenue_of revenue) rows) |}.

(** The grouped table before the significance filter. *)
Definition buckets (channel response conversion revenue : input)
    (joined : list (ContactFrequency * Outcome)) : list row :=
  map (fun g => aggregate response conversion revenue (fst g) (snd g))
      (group_by key_dec (key_of channel) joined).

End Optimal.

(** [df_contact_frequency.join(df_deployments.select(...), on="TACTIC_ID")
    .groupBy("CHANNEL", "contacts_last_30d").agg(...)
    .filter(col("sample_size") >= 100)]: the names of [groupBy] and [agg]
    are resolved against the columns of the joined frame, in the order the
    source writes them, and the table is computed from the columns they
    resolve to. *)
Definition df_optimal_frequency (contact_frequency : list ContactFrequency)
    (deployments : list Deployment) : analysed (list Optimal.row) :=
  let columns :=
    Optimal.joined_columns "TACTIC_ID" contact_frequency_columns outcome_columns in
  and_then (Optimal.resolve "CHANNEL" columns) (fun channel =>
  and_then (Optimal.resolve "contacts_last_30d" columns) (fun _ =>
  and_then (Optimal.resolve "TACTIC_ID" columns) (fun _ =>
  and_then (Optimal.resolve "RESPONSE_FLAG" columns) (fun response =>
  and_then (Optimal.resolve "CONVERSION_FLAG" columns) (fun conversion =>
  and_then (Optimal.resolve "REVENUE" columns) (fun revenue =>
    Analysed
      (filter (fun b => 100 <=? Optimal.sample_size b)
         (Optimal.buckets channel response conversion revenue
            (join_on_tactic_id contact_frequency
               (map select_outcome deployments)))))))))).

(** ** 6. Monthly trends *)

(** The calendar year and month of a day number (proleptic Gregorian). *)
Definition year_and_month (days : Z) : Z * Z :=
  let z := days + 719468 in
  let era := z / 146097 in
  let doe := z - era * 146097 in
  let yoe := (doe - doe / 1460 + doe / 36524 - doe / 146096) / 365 in
  let doy := doe - (365 * yoe + yoe / 4 - yoe / 100) in
  let mp := (5 * doy + 2) / 153 in
  let m := if mp <? 10 then mp + 3 else mp - 9 in
  let y := yoe + era * 400 in
  (if m <=? 2 then y + 1 else y, m).

Definition digit (n : Z) : ascii := ascii_of_nat (48 + Z.to_nat (n mod 10)).

(** [date_format(d, "yyyy-MM")], for the years 0000 to 9999 of [DateType]. *)
Definition date_format_yyyy_MM (d : option Z) : option string :=
  match d with
  | None => None
  | Some days =>
      let (y, m) := year_and_month days in
      Some (String (digit (y / 1000)) (String (digit (y / 100))
           (String (digit (y / 10)) (String (digit y)
           (String "-"%char (String (digit (m / 10)) (String (digit m)
            EmptyString)))))))
  end.

(** Ascending order on a nullable string, nulls first. *)
Definition string_leb (x y : option string) : bool :=
  match x, y with
  | None, _ => true
  | Some _, None => false
  | Some a, Some b => String.leb a b
  end.

Module Monthly.

Definition key : Type := (option string * option string)%type.

Definition key_dec (x y : key) : {x = y} + {x <> y}.
Proof. repeat decide equality. Defined.

(** [withColumn("year_month", ...).groupBy("year_month", "CHANNEL")]. *)
Definition key_of (r : Deployment) : key :=
  (date_format_yyyy_MM (DEPLOYMENT_DATE r), CHANNEL r).

Record row : Type := mkRow {
  group : key;
  deployments : Z;
  unique_clients : Z;
  response_rate : option Q;
  conversion_rate : option Q;
  total_revenue : option Q
}.

Definition aggregate (k : key) (rows : list Deployment) : row :=
  {| group := k;
     deployments := count (map TACTIC_ID rows);
     unique_clients :=
       Z.of_nat (List.length (distinct string_dec (values (map CLIENT_ID rows))));
     response_rate := avg (map RESPONSE_FLAG rows);
     conversion_rate := avg (map CONVERSION_FLAG rows);
     total_revenue := sumQ (map REVENUE rows) |}.

(** [orderBy("year_month", "CHANNEL")]. *)
Definition key_leb (a b : row) : bool :=
  if option_string_dec (fst (group a)) (fst (group b))
  then string_leb (snd (group a)) (snd (group b))
  else string_leb (fst (group a)) (fst (group b)).

End Monthly.

Definition df_monthly_trends (deployments : list Deployment) : list Monthly.row :=
  order_by Monthly.key_leb
    (map (fun g => Monthly.aggregate (fst g) (snd g))
         (group_by Monthly.key_dec Monthly.key_of deployments)).

(** ** The statements of the design document, in its own words *)

(** Contacts of the same client in the inclusive interval of the [n] days
    up to the record's date, the record itself left out, never below 0. *)
Definition contacts_within_days (n : Z) (batch : list Deployment) (r : Deployment)
  : Z :=
  Z.max 0
    (Z.of_nat (List.length
       (filter (fun s => in_range_frame (- n) 0 r s)
               (client_partition (CLIENT_ID r) batch))) - 1).

(** Ascending by date, rows of equal date ascending by TACTIC_ID. *)
Definition by_date_then_tactic (r s : Deployment) : bool :=
  if option_Z_dec (DEPLOYMENT_DATE r) (DEPLOYMENT_DATE s)
  then string_leb (TACTIC_ID r) (TACTIC_ID s)
  else by_date r s.

(** The same-client records dated no later than the record, all of them
    and those that carry a TACTIC_ID. *)
Definition records_up_to (batch : list Deployment) (r : Deployment) : Z :=
  Z.of_nat (List.length
    (filter (fun s => date_leb (DEPLOYMENT_DATE s) (DEPLOYMENT_DATE r))
            (client_partition (CLIENT_ID r) batch))).

Definition named_records_up_to (batch : list Deployment) (r : Deployment) : Z :=
  count (map TACTIC_ID
    (filter (fun s => date_leb (DEPLOYMENT_DATE s) (DEPLOYMENT_DATE r))
            (client_partition (CLIENT_ID r) batch))).

(** The plain mean of a flag over the rows of a group. *)
Definition mean_flag (flag : Deployment -> option Z) (rows : list Deployment) : Q :=
  (inject_Z (Zsum (values (map flag rows)))
   / inject_Z (Z.of_nat (List.length rows)))%Q.

Definition is_0_or_1 (x : option Z) : Prop := x = Some 0 \/ x = Some 1.

(** The records whose flag is true. *)
Definition flagged (flag : Deployment -> option Z) (rows : list Deployment)
  : list Deployment :=
  filter (fun r => match flag r with Some 1 => true | _ => false end) rows.

(** The days from the deployment of a record to its [date], where both
    dates are recorded. *)
Definition days_after_deployment (date : Deployment -> option Z) (r : Deployment)
  : list Z :=
  match date r, DEPLOYMENT_DATE r with
  | Some e, Some s => [e - s]
  | _, _ => []
  end.

(** The mean of (date - deployment date) over the records whose flag is
    true: the sum of the differences over their number; none when there is
    no difference to average. *)
Definition mean_days_over (flag date : Deployment -> option Z)
    (rows : list Deployment) : option Q :=
  match flat_map (days_after_deployment date) (flagged flag rows) with
  | [] => None
  | days =>
      Some (inject_Z (fold_right Z.add 0%Z days)
            / inject_Z (Z.of_nat (List.length days)))%Q
  end.

(** The values a column holds in the given records. *)
Definition present {A : Type} (col : Deployment -> option A)
    (rows : list Deployment) : list A :=
  flat_map (fun r => match col r with Some v => [v] | None => [] end) rows.

(** The total of a flag over the records that carry it; none when no
    record does. *)
Definition flag_total (flag : Deployment -> option Z) (rows : list Deployment)
  : option Z :=
  match present flag rows with
  | [] => None
  | vs => Some (fold_right Z.add 0 vs)
  end.

(** The records of a campaign group and of a client. *)
Definition campaign_records (k : Campaign.key) (deployments : list Deployment)
  : list Deployment :=
  filter (fun r => if Campaign.key_dec (Campaign.key_of r) k then true else false)
         deployments.

Definition client_records (c : option string) (deployments : list Deployment)
  : list Deployment :=
  filter (fun r => if option_string_dec (CLIENT_ID r) c then true else false)
         deployments.

(** ** Sample batches *)

Definition contact (tactic client : string) (day : Z) (response conversion : Z)
  : Deployment :=
  {| TACTIC_ID := Some tactic; CLIENT_ID := Some client;
     CAMPAIGN_ID := Some "K1"%string; CAMPAIGN_NAME := Some "Spring"%string;
     DEPLOYMENT_DATE := Some day; CHANNEL := Some "EMAIL"%string;
     CREATIVE_ID := None; SEGMENT := None; OFFER_TYPE := Some "RATE"%string;
     RESPONSE_FLAG := Some response;
     RESPONSE_DATE := if response =? 1 then Some (day + 2) else None;
     CONVERSION_FLAG := Some conversion;
     CONVERSION_DATE := if conversion =? 1 then Some (day + 7) else None;
     REVENUE := Some (5 # 1)%Q |}.

(** A CSV line whose TACTIC_ID field is empty. *)
Definition unnamed_contact (client : string) (day : Z) (response conversion : Z)
  : Deployment :=
  {| TACTIC_ID := None; CLIENT_ID := Some client;
     CAMPAIGN_ID := Some "K1"%string; CAMPAIGN_NAME := Some "Spring"%string;
     DEPLOYMENT_DATE := Some day; CHANNEL := Some "EMAIL"%string;
     CREATIVE_ID := None; SEGMENT := None; OFFER_TYPE := Some "RATE"%string;
     RESPONSE_FLAG := Some response; RESPONSE_DATE := None;
     CONVERSION_FLAG := Some conversion; CONVERSION_DATE := None;
     REVENUE := None |}.

(** Client C1 contacted on days 1, 5 and 40, RESPONSE_FLAG 0, 1, 0. *)
Definition day1 : Deployment := contact "T1" "C1" 1 0 0.
Definition day5 : Deployment := contact "T2" "C1" 5 1 0.
Definition day40 : Deployment := contact "T3" "C1" 40 0 0.
Definition three_contacts : list Deployment := [day1; day5; day40].

(** Two contacts of one client on one day, listed B before A. *)
Definition tieA : Deployment := contact "A" "C1" 10 0 0.
Definition tieB : Deployment := contact "B" "C1" 10 0 0.
Definition same_day : list Deployment := [tieB; tieA].

(** One line without TACTIC_ID, alone and next to a named one. *)
Definition unnamed : Deployment := unnamed_contact "C9" 10 1 1.
Definition named : Deployment := contact "T7" "C9" 10 1 1.
Definition lone_unnamed : list Deployment := [unnamed].
Definition unnamed_and_named : list Deployment := [unnamed; named].

(** The same TACTIC_ID on two lines. *)
Definition repeated_tactic : list Deployment :=
  [contact "T1" "C1" 3 0 0; contact "T1" "C2" 3 1 0].

(** One hundred contacts of one client on one day, with distinct ids. *)
Definition hundred_contacts : list Deployment :=
  map (fun n => contact (String (ascii_of_nat n) EmptyString) "C1" 20 1 0)
      (seq 0 100).

(** ** 7. Summary statistics and the executive summary *)

(** Python's [format(x, ".2f")]: a number is rendered, [None] raises
    TypeError.  The rendered text is not modelled, the formatted number is. *)
Inductive formatted (A : Type) : Type :=
| Formatted (a : A)
| TypeError.
Arguments Formatted {A} a.
Arguments TypeError {A}.

Definition format_float (x : option Q) : formatted Q :=
  match x with
  | Some q => Formatted q
  | None => TypeError
  end.

Module Summary.

(** [df_deployments.count()]. *)
Definition total_deployments (deployments : list Deployment) : Z :=
  Z.of_nat (List.length deployments).

(** [df_deployments.select('CLIENT_ID').distinct().count()]: the distinct
    rows of the one-column frame, a null CLIENT_ID being one of them. *)
Definition unique_clients (deployments : list Deployment) : Z :=
  Z.of_nat (List.length (distinct option_string_dec (map CLIENT_ID deployments))).

Definition total_campaigns (deployments : list Deployment) : Z :=
  Z.of_nat (List.length (distinct option_string_dec (map CAMPAIGN_ID deployments))).

(** [df_deployments.agg(avg('RESPONSE_FLAG') * 100).collect()[0][0]]. *)
Definition overall_response_rate (deployments : list Deployment) : option Q :=
  option_map (fun q => (q * (100 # 1))%Q) (avg (map RESPONSE_FLAG deployments)).

Definition overall_conversion_rate (deployments : list Deployment) : option Q :=
  option_map (fun q => (q * (100 # 1))%Q) (avg (map CONVERSION_FLAG deployments)).

(** [df_deployments.agg(sum('REVENUE')).collect()[0][0]]. *)
Definition total_revenue (deployments : list Deployment) : option Q :=
  sumQ (map REVENUE deployments).

(** The "Key Metrics" of the executive summary, in the order the f-string
    formats them.  The two tables printed below them are left out. *)
Record key_metrics : Type := mkKeyMetrics {
  km_total_deployments : Z;
  km_unique_clients : Z;
  km_overall_response_rate : Q;
  km_overall_conversion_rate : Q;
  km_total_revenue : Q
}.

Definition executive_summary (deployments : list Deployment)
  : formatted key_metrics :=
  match format_float (overall_response_rate deployments) with
  | TypeError => TypeError
  | Formatted response =>
      match format_float (overall_conversion_rate deployments) with
      | TypeError => TypeError
      | Formatted conversion =>
          match format_float (total_revenue deployments) with
          | TypeError => TypeError
          | Formatted revenue =>
              Formatted
                {| km_total_deployments := total_deployments deployments;
                   km_unique_clients := unique_clients deployments;
                   km_overall_response_rate := response;
                   km_overall_conversion_rate := conversion;
                   km_total_revenue := revenue |}
          end
      end
  end.

End Summary.

(** Contacts of one campaign with their own response and conversion dates:
    two answered after 3 and 8 days, one unanswered line that carries a
    response date all the same, one answered without a date; two converted
    after 10 and 4 days. *)
Definition timed_contact (tactic : string) (day : Z)
    (response : Z) (response_date : option Z)
    (conversion : Z) (conversion_date : option Z) : Deployment :=
  {| TACTIC_ID := Some tactic; CLIENT_ID := Some "C1"%string;
     CAMPAIGN_ID := Some "K1"%string; CAMPAIGN_NAME := Some "Spring"%string;
     DEPLOYMENT_DATE := Some day; CHANNEL := Some "EMAIL"%string;
     CREATIVE_ID := None; SEGMENT := None; OFFER_TYPE := Some "RATE"%string;
     RESPONSE_FLAG := Some response; RESPONSE_DATE := response_date;
     CONVERSION_FLAG := Some conversion; CONVERSION_DATE := conversion_date;
     REVENUE := Some (5 # 1)%Q |}.

Definition timed_contacts : list Deployment :=
  [timed_contact "T1" 10 1 (Some 13) 1 (Some 20);
   timed_contact "T2" 10 1 (Some 18) 0 (Some 30);
   timed_contact "T3" 12 0 (Some 40) 1 (Some 16);
   timed_contact "T4" 15 1 None 0 None].

(** A campaign nobody answered. *)
Definition unanswered : list Deployment := [day1; day40].

(** A batch whose lines are all older than the analysis window, and two
    clients with several contacts each. *)
Definition stale_contacts : list Deployment :=
  [contact "T1" "C1" 1 1 0; contact "T2" "C1" 5 0 0].

Definition two_clients : list Deployment :=
  [contact "T1" "C1" 3 1 1; contact "T2" "C2" 4 0 0; contact "T3" "C1" 9 1 0;
   contact "T4" "C2" 4 1 0; contact "T5" "C1" 30 0 0].

(** * Properties *)

(** ** Lists, groups and orderings *)

Lemma filter_length_perm {A : Type} (f : A -> bool) (p q : list A) :
  Permutation p q -> List.length (filter f p) = List.length (filter f q).
Proof.
  induction 1 as [ | x p q _ IH | x y p | p q r _ IH1 _ IH2 ]; simpl.
  - reflexivity.
  - destruct (f x); simpl; congruence.
  - destruct (f x), (f y); reflexivity.
  - congruence.
Qed.

Lemma values_map_length {A B : Type} (col : A -> option B) (l : list A) :
  List.length (values (map col l)) = List.length (filter (fun r => is_some (col r)) l).
Proof.
  induction l as [ | r l IH ]; simpl; [ reflexivity | ].
  destruct (col r); simpl; congruence.
Qed.

Lemma count_map_perm {A B : Type} (col : A -> option B) (p q : list A) :
  Permutation p q -> count (map col p) = count (map col q).
Proof.
  intros Hpq. unfold count. rewrite !values_map_length.
  f_equal. now apply filter_length_perm.
Qed.

Lemma filter_perm {A : Type} (f : A -> bool) (p q : list A) :
  Permutation p q -> Permutation (filter f p) (filter f q).
Proof.
  induction 1 as [ | x p q _ IH | x y p | p q r _ IH1 _ IH2 ]; simpl.
  - constructor.
  - destruct (f x); [ now constructor | assumption ].
  - destruct (f x), (f y); try reflexivity. constructor.
  - now transitivity (filter f q).
Qed.

Lemma count_nonneg {A : Type} (col : list (option A)) : 0 <= count col.
Proof. unfold count. lia. Qed.

Lemma count_le_length {A : Type} (col : list (option A)) :
  count col <= Z.of_nat (List.length col).
Proof.
  unfold count. induction col as [ | [ v | ] col IH ]; simpl List.length; lia.
Qed.

Lemma count_all_present {A B : Type} (col : A -> option B) (l : list A) :
  (forall r, In r l -> col r <> None) ->
  count (map col l) = Z.of_nat (List.length l).
Proof.
  unfold count. induction l as [ | r l IH ]; intros Hall; simpl; [ reflexivity | ].
  destruct (col r) eqn:E.
  - assert (IH' : Z.of_nat (List.length (values (map col l))) = Z.of_nat (List.length l))
      by (apply IH; intros s Hs; apply Hall; now right).
    simpl List.length. lia.
  - exfalso. apply (Hall r); [ now left | exact E ].
Qed.

Lemma count_none_present {A B : Type} (col : A -> option B) (l : list A) :
  count (map col l) = 0 <-> (forall r, In r l -> col r = None).
Proof.
  unfold count. induction l as [ | r l IH ]; simpl.
  - split; [ intros _ r [] | reflexivity ].
  - destruct (col r) eqn:E.
    + simpl List.length. split; [ lia | ].
      intros Hall. specialize (Hall r (or_introl eq_refl)). congruence.
    + rewrite IH. split.
      * intros Hall s [ <- | Hs ]; [ exact E | now apply Hall ].
      * intros Hall s Hs. apply Hall. now right.
Qed.

Section GroupFacts.

Context {A K : Type}.
Variable K_eq_dec : forall x y : K, {x = y} + {x <> y}.
Variable key : A -> K.

Lemma key_is_true (k : K) (r : A) : key_is K_eq_dec key k r = true <-> key r = k.
Proof. unfold key_is. destruct (K_eq_dec (key r) k); split; congruence. Qed.

Lemma distinct_incl (ks : list K) (k : K) : In k (distinct K_eq_dec ks) -> In k ks.
Proof.
  induction ks as [ | k0 ks IH ]; simpl; [ tauto | ].
  intros [ -> | Hin ]; [ now left | ].
  apply filter_In in Hin. right. now apply IH.
Qed.

Lemma distinct_complete (ks : list K) (k : K) : In k ks -> In k (distinct K_eq_dec ks).
Proof.
  induction ks as [ | k0 ks IH ]; simpl; [ tauto | ].
  intros Hin. destruct (K_eq_dec k k0) as [ -> | Hne ]; [ now left | ].
  right. apply filter_In. split.
  - apply IH. destruct Hin as [ -> | Hin ]; [ congruence | assumption ].
  - destruct (K_eq_dec k k0); [ contradiction | reflexivity ].
Qed.

(** A group holds exactly the rows of its key, and at least one of them. *)
Lemma group_by_rows (rows : list A) (k : K) (g : list A) :
  In (k, g) (group_by K_eq_dec key rows) ->
  g = filter (key_is K_eq_dec key k) rows /\ exists r, In r g /\ key r = k.
Proof.
  unfold group_by. intros Hin. apply in_map_iff in Hin.
  destruct Hin as (k' & Heq & Hk'). inversion Heq; subst k' g. split; [ reflexivity | ].
  apply distinct_incl, in_map_iff in Hk'. destruct Hk' as (r & Hr & Hin).
  exists r. split; [ | assumption ].
  apply filter_In. split; [ assumption | now apply key_is_true ].
Qed.

Lemma group_by_member (rows : list A) (k : K) (g : list A) (r : A) :
  In (k, g) (group_by K_eq_dec key rows) ->
  (In r g <-> In r rows /\ key r = k).
Proof.
  intros Hin. destruct (group_by_rows _ _ _ Hin) as (-> & _).
  rewrite filter_In, key_is_true. tauto.
Qed.

End GroupFacts.

Section OrderFacts.

Context {A : Type}.
Variable leb : A -> A -> bool.

Lemma insert_sorted_perm (x : A) (l : list A) :
  Permutation (x :: l) (insert_sorted leb x l).
Proof.
  induction l as [ | y l IH ]; simpl; [ reflexivity | ].
  destruct (leb x y); [ reflexivity | ].
  rewrite perm_swap. now constructor.
Qed.

Lemma order_by_perm (l : list A) : Permutation l (order_by leb l).
Proof.
  induction l as [ | x l IH ]; simpl; [ constructor | ].
  rewrite <- insert_sorted_perm. now constructor.
Qed.

Lemma order_by_In (l : list A) (x : A) : In x (order_by leb l) <-> In x l.
Proof.
  split; apply Permutation_in;
    [ symmetry | ]; apply order_by_perm.
Qed.

Hypothesis leb_total : forall x y, leb x y = true \/ leb y x = true.
Hypothesis leb_trans : forall x y z, leb x y = true -> leb y z = true -> leb x z = true.

Lemma insert_sorted_sorted (x : A) (l : list A) :
  StronglySorted (fun a b => leb a b = true) l ->
  StronglySorted (fun a b => leb a b = true) (insert_sorted leb x l).
Proof.
  induction 1 as [ | y l Hs IH Hall ]; simpl.
  - repeat constructor.
  - destruct (leb x y) eqn:E.
    + constructor; [ now constructor | ].
      constructor; [ assumption | ].
      eapply Forall_impl; [ | exact Hall ]. intros z Hz. now apply leb_trans with y.
    + constructor; [ assumption | ].
      assert (Hyx : leb y x = true) by (destruct (leb_total x y); congruence).
      eapply Permutation_Forall; [ apply insert_sorted_perm | ].
      now constructor.
Qed.

Lemma order_by_sorted (l : list A) :
  StronglySorted (fun a b => leb a b = true) (order_by leb l).
Proof.
  induction l as [ | x l IH ]; simpl; [ constructor | now apply insert_sorted_sorted ].
Qed.

End OrderFacts.

(** ** The window scan *)

Lemma date_leb_total (x y : option Z) : date_leb x y = true \/ date_leb y x = true.
Proof. destruct x, y; simpl; auto. lia. Qed.

Lemma date_leb_trans (x y z : option Z) :
  date_leb x y = true -> date_leb y z = true -> date_leb x z = true.
Proof. destruct x, y, z; simpl; try congruence. lia. Qed.

Lemma date_leb_antisym (x y : option Z) :
  date_leb x y = true -> date_leb y x = true -> x = y.
Proof. destruct x, y; simpl; try congruence. intros. f_equal. lia. Qed.

(** The arrangement that keeps batch order among equal dates is one the
    engine may produce: every partition has an execution. *)
Lemma sort_by_date_window_order (partition : list Deployment) :
  window_order partition (sort_by_date partition).
Proof.
  split.
  - apply order_by_perm.
  - apply order_by_sorted.
    + intros r s. apply date_leb_total.
    + intros r s t. apply date_leb_trans.
Qed.

Lemma df_contact_frequency_run (batch : list Deployment) :
  contact_frequency_run batch (df_contact_frequency batch).
Proof.
  exists (map (fun c => sort_by_date (client_partition c batch)) (clients batch)).
  split.
  - induction (clients batch) as [ | c cs IH ]; simpl; constructor;
      [ apply sort_by_date_window_order | exact IH ].
  - unfold df_contact_frequency.
    induction (clients batch) as [ | c cs IH ]; simpl; [ reflexivity | now rewrite IH ].
Qed.

(** Every emitted row comes from the scan of one client's partition. *)
Lemma contact_frequency_run_row (batch : list Deployment)
    (out : list ContactFrequency) (w : ContactFrequency) :
  contact_frequency_run batch out -> In w out ->
  exists c p, window_order (client_partition c batch) p /\ In w (window_rows p).
Proof.
  intros (parts & Hparts & ->) Hin.
  induction Hparts as [ | c p cs ps Hcp _ IH ]; simpl in Hin; [ contradiction | ].
  apply in_app_or in Hin. destruct Hin as [ Hin | Hin ].
  - now exists c, p.
  - now apply IH.
Qed.

Lemma window_scan_row (partition : list Deployment) (w : ContactFrequency) :
  forall todo prev n,
    In w (window_scan partition prev n todo) ->
    In (cf_row w) todo /\
    contacts_last_30d w = count_over window_client_30d partition (cf_row w) - 1 /\
    contacts_last_60d w = count_over window_client_60d partition (cf_row w) - 1 /\
    contacts_last_90d w = count_over window_client_90d partition (cf_row w) - 1.
Proof.
  induction todo as [ | r rest IH ]; intros prev n Hin; simpl in Hin; [ contradiction | ].
  destruct Hin as [ <- | Hin ].
  - simpl. auto.
  - destruct (IH _ _ Hin) as (Hrow & Hcounts). split; [ now right | exact Hcounts ].
Qed.

Lemma window_scan_rows (partition : list Deployment) :
  forall todo prev n, map cf_row (window_scan partition prev n todo) = todo.
Proof.
  induction todo as [ | r rest IH ]; intros prev n; simpl; [ reflexivity | ].
  now rewrite IH.
Qed.

Lemma window_scan_numbers (partition : list Deployment) :
  forall todo prev n,
    map contact_number (window_scan partition prev n todo)
    = map (fun i => n + Z.of_nat i) (seq 0 (List.length todo)).
Proof.
  induction todo as [ | r rest IH ]; intros prev n; simpl; [ reflexivity | ].
  rewrite IH, <- seq_shift, map_map. f_equal; [ lia | ].
  apply map_ext. intros i. lia.
Qed.

Lemma count_over_range_perm (lo hi : Z) (p q : list Deployment) (r : Deployment) :
  Permutation p q -> count_over_range lo hi p r = count_over_range lo hi q r.
Proof.
  intros Hpq. unfold count_over_range.
  apply count_map_perm. now apply filter_perm.
Qed.

(** A wider frame counts at least as much. *)
Lemma count_over_range_mono (lo lo' : Z) (partition : list Deployment) (r : Deployment) :
  lo' <= lo ->
  count_over_range lo 0 partition r <= count_over_range lo' 0 partition r.
Proof.
  intros Hlo. unfold count_over_range, count.
  induction partition as [ | s l IH ]; simpl; [ lia | ].
  assert (Himp : in_range_frame lo 0 r s = true -> in_range_frame lo' 0 r s = true).
  { unfold in_range_frame.
    destruct (DEPLOYMENT_DATE r), (DEPLOYMENT_DATE s); try congruence. lia. }
  destruct (in_range_frame lo 0 r s).
  - rewrite Himp by reflexivity. simpl.
    destruct (TACTIC_ID s); simpl List.length; lia.
  - destruct (in_range_frame lo' 0 r s); [ | exact IH ].
    simpl. destruct (TACTIC_ID s); simpl List.length; lia.
Qed.

(** A row that carries a TACTIC_ID counts itself in its own frame. *)
Lemma count_over_range_self (lo : Z) (partition : list Deployment) (r : Deployment) :
  lo <= 0 -> In r partition -> TACTIC_ID r <> None ->
  1 <= count_over_range lo 0 partition r.
Proof.
  intros Hlo Hin Hid. unfold count_over_range, count.
  induction partition as [ | s l IH ]; simpl in *; [ contradiction | ].
  destruct Hin as [ -> | Hin ].
  - assert (Hself : in_range_frame lo 0 r r = true).
    { unfold in_range_frame. destruct (DEPLOYMENT_DATE r); [ lia | reflexivity ]. }
    rewrite Hself. simpl. destruct (TACTIC_ID r); [ | congruence ].
    simpl List.length. lia.
  - specialize (IH Hin). destruct (in_range_frame lo 0 r s); [ | exact IH ].
    simpl. destruct (TACTIC_ID s); simpl List.length; lia.
Qed.

(** Every row of the filtered batch is dated within the 548 days. *)
Lemma df_deployments_dated (today : Z) (csv : list Deployment) (r : Deployment) :
  In r (df_deployments today csv) ->
  exists d, DEPLOYMENT_DATE r = Some d /\ today - 548 <= d <= today.
Proof.
  unfold df_deployments, between, analysis_start_date.
  intros Hin. apply filter_In in Hin. destruct Hin as (_ & Hd).
  destruct (DEPLOYMENT_DATE r) as [ d | ]; [ | discriminate ].
  exists d. split; [ reflexivity | lia ].
Qed.

(** Within the filtered batch each of the three frames reaches back past
    the oldest row: it holds the rows dated up to the current one. *)
Lemma frame_covers_history (n : Z) (today : Z) (csv : list Deployment)
    (c : option string) (r : Deployment) :
  n <= - 548 ->
  In r (df_deployments today csv) ->
  filter (in_range_frame n 0 r) (client_partition c (df_deployments today csv))
  = filter (fun s => date_leb (DEPLOYMENT_DATE s) (DEPLOYMENT_DATE r))
           (client_partition c (df_deployments today csv)).
Proof.
  intros Hn Hr. apply filter_ext_in. intros s Hs.
  apply filter_In in Hs. destruct Hs as (Hs & _).
  destruct (df_deployments_dated _ _ _ Hr) as (d & Ed & Hd).
  destruct (df_deployments_dated _ _ _ Hs) as (e & Ee & He).
  unfold in_range_frame. rewrite Ed, Ee. simpl.
  destruct (e <=? d) eqn:E; lia.
Qed.

(** ** Rolling counts *)

Lemma run_row_in_partition (batch : list Deployment) (out : list ContactFrequency)
    (w : ContactFrequency) :
  contact_frequency_run batch out -> In w out ->
  exists p,
    Permutation (client_partition (CLIENT_ID (cf_row w)) batch) p /\
    In (cf_row w) p /\ In (cf_row w) batch /\ In w (window_scan p None 1 p).
Proof.
  intros Hrun Hin.
  destruct (contact_frequency_run_row _ _ _ Hrun Hin) as (c & p & (Hperm & _) & Hw).
  destruct (window_scan_row p w p None 1 Hw) as (Hrow & _).
  assert (Hpart : In (cf_row w) (client_partition c batch))
    by (eapply Permutation_in; [ symmetry; exact Hperm | exact Hrow ]).
  apply filter_In in Hpart. destruct Hpart as (Hbatch & Hc).
  apply key_is_true in Hc. subst c.
  exists p. auto.
Qed.

(** C1, at the batch of the scenario: the record of day 40 gets
    contacts_last_30d = 2 from the frame of 30 * 86400 days, where the
    30-day interval of the design document holds none of the two earlier
    contacts; contacts_last_90d is 2 under both.  A frame of 30 days,
    [rangeBetween(-30, 0)], gives the 0 of the design document. *)
Theorem day40_contacts_last_30d :
  map (fun w => (DEPLOYMENT_DATE (cf_row w), contacts_last_30d w, contacts_last_90d w))
      (df_contact_frequency (df_deployments 40 three_contacts))
  = [(Some 1, 0, 0); (Some 5, 1, 1); (Some 40, 2, 2)]
  /\ contacts_within_days 30 (df_deployments 40 three_contacts) day40 = 0
  /\ contacts_within_days 90 (df_deployments 40 three_contacts) day40 = 2
  /\ count_over (rangeBetween (- 30) 0)
       (client_partition (Some "C1"%string) (df_deployments 40 three_contacts))
       day40 - 1 = 0.
Proof. repeat split; vm_compute; reflexivity. Qed.

(** C6, as amended: in every execution and for every emitted record,
    contacts_last_30d <= contacts_last_60d <= contacts_last_90d, and the
    three counts are >= 0 when the record carries a TACTIC_ID. *)
Theorem rolling_counts_monotone (batch : list Deployment)
    (out : list ContactFrequency) (w : ContactFrequency) :
  contact_frequency_run batch out -> In w out ->
  contacts_last_30d w <= contacts_last_60d w <= contacts_last_90d w /\
  (TACTIC_ID (cf_row w) <> None ->
   0 <= contacts_last_30d w /\ 0 <= contacts_last_60d w /\ 0 <= contacts_last_90d w).
Proof.
  intros Hrun Hin.
  destruct (run_row_in_partition _ _ _ Hrun Hin) as (p & _ & Hrow & _ & Hw).
  destruct (window_scan_row p w p None 1 Hw) as (_ & -> & -> & ->).
  unfold count_over. cbn [window_client_30d window_client_60d window_client_90d
                          range_start range_end].
  pose proof (count_over_range_mono (- 30 * 86400) (- 60 * 86400) p (cf_row w)) as H36.
  pose proof (count_over_range_mono (- 60 * 86400) (- 90 * 86400) p (cf_row w)) as H69.
  split; [ lia | ].
  intros Hid.
  assert (Hself : 1 <= count_over_range (- 30 * 86400) 0 p (cf_row w))
    by (apply count_over_range_self; [ lia | exact Hrow | exact Hid ]).
  lia.
Qed.

Lemma rolling_counts_monotone_witness :
  exists w, In w (df_contact_frequency three_contacts) /\
    contacts_last_30d w <= contacts_last_60d w <= contacts_last_90d w /\
    0 <= contacts_last_30d w.
Proof.
  exists (nth 2 (df_contact_frequency three_contacts)
                (mkContactFrequency day1 None 0 0 0 0)).
  assert (Hin : In (nth 2 (df_contact_frequency three_contacts)
                          (mkContactFrequency day1 None 0 0 0 0))
                   (df_contact_frequency three_contacts))
    by (vm_compute; right; right; left; reflexivity).
  destruct (rolling_counts_monotone three_contacts _ _
              (df_contact_frequency_run three_contacts) Hin) as (Hmono & Hpos).
  split; [ exact Hin | ]. split; [ exact Hmono | ].
  apply Hpos. vm_compute. discriminate.
Defined.

(** C6, as stated, fails on a line without TACTIC_ID: its own frame counts
    no TACTIC_ID, and the count less one is -1. *)
Lemma rolling_count_negative_without_tactic_id :
  map (fun w => (contacts_last_30d w, contacts_last_60d w, contacts_last_90d w))
      (df_contact_frequency (df_deployments 40 lone_unnamed))
  = [(-1, -1, -1)]
  /\ ~ (forall w, In w (df_contact_frequency (df_deployments 40 lone_unnamed)) ->
        0 <= contacts_last_30d w).
Proof.
  split; [ vm_compute; reflexivity | ].
  intros Hall.
  specialize (Hall (mkContactFrequency unnamed None 1 (-1) (-1) (-1))).
  assert (Hin : In (mkContactFrequency unnamed None 1 (-1) (-1) (-1))
                   (df_contact_frequency (df_deployments 40 lone_unnamed)))
    by (vm_compute; left; reflexivity).
  specialize (Hall Hin). simpl in Hall. lia.
Qed.

(** C9, as amended: in every execution over the filtered batch the three
    rolling counts of a record coincide, each being the number of
    same-client records that carry a TACTIC_ID and are dated no later than
    the record, less one; when every record of the batch carries a
    TACTIC_ID that is the number of same-client records dated no later,
    less one. *)
Theorem rolling_counts_coincide (today : Z) (csv : list Deployment)
    (out : list ContactFrequency) (w : ContactFrequency) :
  contact_frequency_run (df_deployments today csv) out -> In w out ->
  contacts_last_30d w = contacts_last_60d w /\
  contacts_last_60d w = contacts_last_90d w /\
  contacts_last_90d w = named_records_up_to (df_deployments today csv) (cf_row w) - 1 /\
  ((forall r, In r (df_deployments today csv) -> TACTIC_ID r <> None) ->
   contacts_last_90d w = records_up_to (df_deployments today csv) (cf_row w) - 1).
Proof.
  intros Hrun Hin.
  destruct (run_row_in_partition _ _ _ Hrun Hin) as (p & Hperm & _ & Hbatch & Hw).
  destruct (window_scan_row p w p None 1 Hw) as (_ & -> & -> & ->).
  assert (Hall : forall n, n <= - 548 ->
            count_over_range n 0 p (cf_row w)
            = named_records_up_to (df_deployments today csv) (cf_row w)).
  { intros n Hn.
    rewrite <- (count_over_range_perm n 0 _ _ (cf_row w) Hperm).
    unfold count_over_range, named_records_up_to.
    now rewrite frame_covers_history. }
  unfold count_over. cbn [window_client_30d window_client_60d window_client_90d
                          range_start range_end].
  rewrite !Hall by lia.
  repeat split.
  intros Hnamed. f_equal.
  unfold named_records_up_to, records_up_to.
  apply count_all_present.
  intros r Hr. apply filter_In in Hr. destruct Hr as (Hr & _).
  apply filter_In in Hr. destruct Hr as (Hr & _). now apply Hnamed.
Qed.

Lemma rolling_counts_coincide_witness :
  exists w, In w (df_contact_frequency (df_deployments 40 three_contacts)) /\
    cf_row w = day40 /\
    contacts_last_30d w = contacts_last_60d w /\
    contacts_last_60d w = contacts_last_90d w /\
    contacts_last_90d w = 3 - 1.
Proof.
  exists (nth 2 (df_contact_frequency (df_deployments 40 three_contacts))
                (mkContactFrequency day1 None 0 0 0 0)).
  assert (Hin : In (nth 2 (df_contact_frequency (df_deployments 40 three_contacts))
                          (mkContactFrequency day1 None 0 0 0 0))
                   (df_contact_frequency (df_deployments 40 three_contacts)))
    by (vm_compute; right; right; left; reflexivity).
  destruct (rolling_counts_coincide 40 three_contacts _ _
              (df_contact_frequency_run _) Hin) as (H36 & H69 & _ & Hall).
  split; [ exact Hin | ]. split; [ vm_compute; reflexivity | ].
  split; [ exact H36 | ]. split; [ exact H69 | ].
  rewrite Hall.
  - vm_compute. reflexivity.
  - intros r Hr. vm_compute in Hr.
    destruct Hr as [ <- | [ <- | [ <- | [] ] ] ]; discriminate.
Defined.

(** C9, as stated, fails on a line without TACTIC_ID: one same-client
    record is dated no later than it (itself), so the stated count is 0,
    and the computed counts are -1. *)
Lemma rolling_count_skips_unnamed_records :
  map (fun w => (contacts_last_30d w,
                 records_up_to (df_deployments 40 lone_unnamed) (cf_row w) - 1))
      (df_contact_frequency (df_deployments 40 lone_unnamed))
  = [(-1, 0)].
Proof. vm_compute. reflexivity. Qed.

(** ** Contact numbers *)

(** Two date-ascending arrangements of rows with pairwise distinct dates
    are the same arrangement. *)
Lemma date_order_unique (p : list Deployment) :
  forall q,
    Permutation p q ->
    NoDup (map DEPLOYMENT_DATE p) ->
    StronglySorted (fun r s => by_date r s = true) p ->
    StronglySorted (fun r s => by_date r s = true) q ->
    p = q.
Proof.
  induction p as [ | a p IH ]; intros q Hperm Hnodup Hp Hq.
  - apply Permutation_nil in Hperm. now subst q.
  - destruct q as [ | b q ];
      [ symmetry in Hperm; now apply Permutation_nil_cons in Hperm | ].
    inversion Hp as [ | ? ? Hp' Hap ]; subst.
    inversion Hq as [ | ? ? Hq' Hbq ]; subst.
    inversion Hnodup as [ | ? ? Hfresh Hnodup' ]; subst.
    assert (Hab : a = b).
    { assert (Hb : In b (a :: p))
        by (eapply Permutation_in; [ symmetry; exact Hperm | now left ]).
      destruct Hb as [ Hb | Hb ]; [ exact Hb | ].
      assert (Ha : In a (b :: q))
        by (eapply Permutation_in; [ exact Hperm | now left ]).
      destruct Ha as [ Ha | Ha ]; [ now symmetry | ].
      exfalso. apply Hfresh.
      rewrite Forall_forall in Hap, Hbq.
      rewrite (date_leb_antisym _ _ (Hap b Hb) (Hbq a Ha)).
      now apply in_map. }
    subst b. f_equal.
    apply IH; try assumption.
    now apply Permutation_cons_inv with a.
Qed.

(** C2, as amended: the rows of a client partition are arranged by
    deployment_date ascending, with no tie-break.  In every such
    arrangement the contact numbers are 1, 2, ..., N, with N the number of
    contacts of the client, one per record; and when no two contacts of the
    client share a deployment_date, every arrangement yields the same
    rows, hence the same contact numbers. *)
Theorem contact_numbers_contiguous (batch : list Deployment) (c : option string)
    (p : list Deployment) :
  window_order (client_partition c batch) p ->
  map contact_number (window_rows p)
  = map Z.of_nat (seq 1 (List.length (client_partition c batch))) /\
  map cf_row (window_rows p) = p /\
  (NoDup (map DEPLOYMENT_DATE (client_partition c batch)) ->
   forall q, window_order (client_partition c batch) q ->
             window_rows q = window_rows p).
Proof.
  intros (Hperm & Hsorted). unfold window_rows. repeat split.
  - rewrite window_scan_numbers, (Permutation_length Hperm), <- seq_shift, map_map.
    apply map_ext. intros i. lia.
  - apply window_scan_rows.
  - intros Hnodup q (Hperm' & Hsorted').
    assert (Hqp : q = p).
    { apply date_order_unique; try assumption.
      - now rewrite <- Hperm'.
      - eapply Permutation_NoDup; [ | exact Hnodup ].
        now apply Permutation_map. }
    now subst q.
Qed.

Lemma three_contacts_window_order :
  window_order (client_partition (Some "C1"%string) three_contacts) three_contacts.
Proof.
  split.
  - apply Permutation_refl.
  - repeat constructor.
Defined.

Lemma contact_numbers_contiguous_witness :
  map contact_number (window_rows three_contacts) = [1; 2; 3] /\
  map cf_row (window_rows three_contacts) = three_contacts /\
  window_rows (sort_by_date (client_partition (Some "C1"%string) three_contacts))
  = window_rows three_contacts.
Proof.
  destruct (contact_numbers_contiguous three_contacts (Some "C1"%string)
              three_contacts three_contacts_window_order)
    as (Hnum & Hrows & Hsame).
  split; [ exact Hnum | ]. split; [ exact Hrows | ].
  apply Hsame.
  - repeat constructor; simpl; intuition discriminate.
  - apply sort_by_date_window_order.
Defined.

(** C2, as stated, fails for two contacts of one client on one day: both
    arrangements are ascending by date, they give contact "A" the numbers
    2 and 1, and the one that keeps the batch order puts "B" before "A". *)
Lemma contact_number_tie_unresolved :
  window_order (client_partition (Some "C1"%string) same_day) [tieB; tieA] /\
  window_order (client_partition (Some "C1"%string) same_day) [tieA; tieB] /\
  map (fun w => (TACTIC_ID (cf_row w), contact_number w)) (window_rows [tieB; tieA])
  = [(Some "B"%string, 1); (Some "A"%string, 2)] /\
  map (fun w => (TACTIC_ID (cf_row w), contact_number w)) (window_rows [tieA; tieB])
  = [(Some "A"%string, 1); (Some "B"%string, 2)] /\
  map (fun w => (TACTIC_ID (cf_row w), contact_number w))
      (df_contact_frequency (df_deployments 40 same_day))
  = [(Some "B"%string, 1); (Some "A"%string, 2)] /\
  by_date_then_tactic tieB tieA = false.
Proof.
  split; [ split; [ apply Permutation_refl | repeat constructor ] | ].
  split; [ split; [ apply perm_swap | repeat constructor ] | ].
  repeat split; vm_compute; reflexivity.
Qed.

(** ** Campaign performance *)

Lemma Qeq_bool_inject_Z_0 (z : Z) : Qeq_bool (inject_Z z) (0 # 1) = (z =? 0).
Proof. unfold Qeq_bool, inject_Z. simpl. rewrite Z.mul_1_r. now destruct z. Qed.

Lemma df_campaign_performance_row (conf : SessionConf) (deployments : list Deployment) (g : Campaign.row) :
  In g (df_campaign_performance conf deployments) ->
  exists rows,
    In (Campaign.group g, rows)
       (group_by Campaign.key_dec Campaign.key_of deployments) /\
    g = Campaign.aggregate conf (Campaign.group g) rows.
Proof.
  unfold df_campaign_performance. intros Hin. apply in_map_iff in Hin.
  destruct Hin as ((k & rows) & <- & Hin). exists rows. simpl. auto.
Qed.

(** A row of the campaign table aggregates the records of its key. *)
Lemma df_campaign_performance_records (conf : SessionConf)
    (deployments : list Deployment) (g : Campaign.row) :
  In g (df_campaign_performance conf deployments) ->
  g = Campaign.aggregate conf (Campaign.group g)
        (campaign_records (Campaign.group g) deployments) /\
  campaign_records (Campaign.group g) deployments <> [].
Proof.
  intros Hin. destruct (df_campaign_performance_row _ _ _ Hin) as (rows & Hgroup & Hg).
  destruct (group_by_rows _ _ _ _ _ Hgroup) as (Hrows & r & Hr & _).
  change (filter (key_is Campaign.key_dec Campaign.key_of (Campaign.group g)) deployments)
    with (campaign_records (Campaign.group g) deployments) in Hrows.
  rewrite <- Hrows. split; [ exact Hg | ]. intros ->. contradiction.
Qed.

Lemma values_present {A : Type} (col : Deployment -> option A)
    (rows : list Deployment) :
  values (map col rows) = present col rows.
Proof.
  unfold present. induction rows as [ | r rows IH ]; simpl; [ reflexivity | ].
  destruct (col r); simpl; now rewrite IH.
Qed.

Lemma sum_flag_total (flag : Deployment -> option Z) (rows : list Deployment) :
  sum (map flag rows) = flag_total flag rows.
Proof.
  unfold sum, flag_total. rewrite values_present.
  now destruct (present flag rows).
Qed.

(** C3, as amended: for every campaign group, with the totals taken over
    the records of the group, response_to_conversion_rate is
    total_conversions / total_responses * 100 when total_responses is not
    0 (so when it is > 0) and null when a total is null; when
    total_responses is 0 the division has no guard, and the outcome is
    null in a session with ANSI mode off and a divide-by-zero fault in a
    session with ANSI mode on. *)
Theorem response_to_conversion_rate_of_group (conf : SessionConf)
    (deployments : list Deployment) (g : Campaign.row) :
  In g (df_campaign_performance conf deployments) ->
  let rows := campaign_records (Campaign.group g) deployments in
  Campaign.total_responses g = flag_total RESPONSE_FLAG rows /\
  Campaign.total_conversions g = flag_total CONVERSION_FLAG rows /\
  (forall responses conversions,
     flag_total RESPONSE_FLAG rows = Some responses ->
     flag_total CONVERSION_FLAG rows = Some conversions ->
     responses <> 0 ->
     Campaign.response_to_conversion_rate g
     = Value (Some (inject_Z conversions / inject_Z responses * (100 # 1))%Q)) /\
  (forall conversions,
     flag_total RESPONSE_FLAG rows = Some 0 ->
     flag_total CONVERSION_FLAG rows = Some conversions ->
     Campaign.response_to_conversion_rate g
     = if spark_sql_ansi_enabled conf then DivideByZero else Value None) /\
  (flag_total RESPONSE_FLAG rows = None \/ flag_total CONVERSION_FLAG rows = None ->
   Campaign.response_to_conversion_rate g = Value None).
Proof.
  intros Hin rows. destruct (df_campaign_performance_records _ _ _ Hin) as (Hg & _).
  fold rows in Hg. rewrite Hg. cbn [Campaign.total_responses Campaign.total_conversions
    Campaign.response_to_conversion_rate Campaign.aggregate].
  rewrite !sum_flag_total. unfold divide, to_double.
  split; [ reflexivity | ]. split; [ reflexivity | ].
  destruct (flag_total RESPONSE_FLAG rows) as [ r | ];
    destruct (flag_total CONVERSION_FLAG rows) as [ c | ]; cbn [option_map];
    try rewrite Qeq_bool_inject_Z_0.
  - split; [ | split ].
    + intros r' c' Hr Hc Hne. inversion Hr; inversion Hc; subst.
      destruct (r' =? 0) eqn:E; [ lia | reflexivity ].
    + intros c' Hr _. inversion Hr; subst. simpl.
      now destruct (spark_sql_ansi_enabled conf).
    + intros [ H | H ]; discriminate H.
  - split; [ | split ]; try (intros; discriminate). reflexivity.
  - split; [ | split ]; try (intros; discriminate). reflexivity.
  - split; [ | split ]; try (intros; discriminate). reflexivity.
Qed.

Lemma response_to_conversion_rate_of_group_witness :
  (exists g, In g (df_campaign_performance ansi_on (df_deployments 40 timed_contacts)) /\
     Campaign.total_responses g = Some 3 /\
     Campaign.total_conversions g = Some 2 /\
     Campaign.response_to_conversion_rate g
     = Value (Some (inject_Z 2 / inject_Z 3 * (100 # 1))%Q)) /\
  (exists g, In g (df_campaign_performance ansi_off (df_deployments 40 unanswered)) /\
     Campaign.total_responses g = Some 0 /\
     Campaign.response_to_conversion_rate g = Value None).
Proof.
  split.
  - assert (Hin : In (nth 0 (df_campaign_performance ansi_on (df_deployments 40 timed_contacts))
                            (Campaign.aggregate ansi_on (None, None, None, None) []))
                     (df_campaign_performance ansi_on (df_deployments 40 timed_contacts)))
      by (vm_compute; left; reflexivity).
    destruct (response_to_conversion_rate_of_group _ _ _ Hin)
      as (Hresp & Hconv & Hrate & _).
    eexists. split; [ exact Hin | ].
    split; [ rewrite Hresp; vm_compute; reflexivity | ].
    split; [ rewrite Hconv; vm_compute; reflexivity | ].
    apply Hrate; [ vm_compute; reflexivity | vm_compute; reflexivity | lia ].
  - assert (Hin : In (nth 0 (df_campaign_performance ansi_off (df_deployments 40 unanswered))
                            (Campaign.aggregate ansi_off (None, None, None, None) []))
                     (df_campaign_performance ansi_off (df_deployments 40 unanswered)))
      by (vm_compute; left; reflexivity).
    destruct (response_to_conversion_rate_of_group _ _ _ Hin)
      as (Hresp & _ & _ & Hzero & _).
    eexists. split; [ exact Hin | ].
    split; [ rewrite Hresp; vm_compute; reflexivity | ].
    apply (Hzero 0); vm_compute; reflexivity.
Defined.

(** C3, as stated, fails in a session with ANSI mode on: for a campaign of
    two contacts nobody answered, total_responses is 0 and the division
    raises, where the claim has null and no fault. *)
Lemma response_to_conversion_rate_raises_under_ansi :
  map (fun g => (Campaign.total_responses g, Campaign.total_conversions g,
                 Campaign.response_to_conversion_rate g))
      (df_campaign_performance ansi_on (df_deployments 40 unanswered))
  = [(Some 0, Some 0, DivideByZero)].
Proof. vm_compute. reflexivity. Qed.

(** [avg] over the [when] column averages the differences of the flagged
    records. *)
Lemma values_when_flag (flag date : Deployment -> option Z) (rows : list Deployment) :
  values (map (fun r => when (eq_lit (flag r) 1)
                             (datediff (date r) (DEPLOYMENT_DATE r))) rows)
  = flat_map (days_after_deployment date) (flagged flag rows).
Proof.
  unfold flagged, days_after_deployment.
  induction rows as [ | r rows IH ]; simpl; [ reflexivity | ].
  destruct (flag r) as [ [ | [ f | f | ] | f ] | ]; simpl; try exact IH.
  destruct (date r), (DEPLOYMENT_DATE r); simpl; now rewrite IH.
Qed.

Lemma avg_when_flag (flag date : Deployment -> option Z) (rows : list Deployment) :
  avg (map (fun r => when (eq_lit (flag r) 1)
                          (datediff (date r) (DEPLOYMENT_DATE r))) rows)
  = mean_days_over flag date rows.
Proof.
  unfold mean_days_over, avg. rewrite values_when_flag.
  now destruct (flat_map (days_after_deployment date) (flagged flag rows)).
Qed.

Lemma flagged_none (flag : Deployment -> option Z) (rows : list Deployment) :
  (forall r, In r rows -> flag r <> Some 1) -> flagged flag rows = [].
Proof.
  intros Hnone. unfold flagged.
  induction rows as [ | r rows IH ]; simpl; [ reflexivity | ].
  pose proof (Hnone r (or_introl eq_refl)) as Hr.
  destruct (flag r) as [ [ | [ f | f | ] | f ] | ];
    try (apply IH; intros s Hs; apply Hnone; now right).
  congruence.
Qed.

Lemma days_of_dated (date : Deployment -> option Z) (rows : list Deployment) :
  (forall r, In r rows -> date r <> None /\ DEPLOYMENT_DATE r <> None) ->
  List.length (flat_map (days_after_deployment date) rows) = List.length rows.
Proof.
  unfold days_after_deployment.
  induction rows as [ | r rows IH ]; intros Hdated; simpl; [ reflexivity | ].
  destruct (Hdated r (or_introl eq_refl)) as (Hd & Hs).
  destruct (date r); [ | congruence ]. destruct (DEPLOYMENT_DATE r); [ | congruence ].
  simpl. f_equal. apply IH. intros s Hs'. apply Hdated. now right.
Qed.

Lemma mean_days_over_dated (flag date : Deployment -> option Z)
    (rows : list Deployment) :
  flagged flag rows <> [] ->
  (forall r, In r (flagged flag rows) -> date r <> None /\ DEPLOYMENT_DATE r <> None) ->
  mean_days_over flag date rows
  = Some (inject_Z (fold_right Z.add 0%Z
                      (flat_map (days_after_deployment date) (flagged flag rows)))
          / inject_Z (Z.of_nat (List.length (flagged flag rows))))%Q.
Proof.
  intros Hne Hdated. unfold mean_days_over.
  pose proof (days_of_dated date _ Hdated) as Hlen.
  destruct (flat_map (days_after_deployment date) (flagged flag rows)) as [ | d ds ].
  - destruct (flagged flag rows); [ congruence | discriminate ].
  - now rewrite Hlen.
Qed.

(** C7: for every campaign group, avg_days_to_response is the mean of
    (response_date - deployment_date) over the records of the group whose
    response_flag is 1: the sum of these differences over the number of
    these records when each of them has its dates, and null when the group
    has no such record; the same for avg_days_to_conversion with the
    conversion flag and date. *)
Theorem avg_days_over_flagged_records (conf : SessionConf)
    (deployments : list Deployment) (g : Campaign.row) :
  In g (df_campaign_performance conf deployments) ->
  let rows := campaign_records (Campaign.group g) deployments in
  Campaign.avg_days_to_response g
  = mean_days_over RESPONSE_FLAG RESPONSE_DATE rows /\
  Campaign.avg_days_to_conversion g
  = mean_days_over CONVERSION_FLAG CONVERSION_DATE rows /\
  ((forall r, In r rows -> RESPONSE_FLAG r <> Some 1) ->
   Campaign.avg_days_to_response g = None) /\
  ((forall r, In r rows -> CONVERSION_FLAG r <> Some 1) ->
   Campaign.avg_days_to_conversion g = None) /\
  (flagged RESPONSE_FLAG rows <> [] ->
   (forall r, In r (flagged RESPONSE_FLAG rows) ->
      RESPONSE_DATE r <> None /\ DEPLOYMENT_DATE r <> None) ->
   Campaign.avg_days_to_response g
   = Some (inject_Z (fold_right Z.add 0%Z
                       (flat_map (days_after_deployment RESPONSE_DATE)
                                 (flagged RESPONSE_FLAG rows)))
           / inject_Z (Z.of_nat (List.length (flagged RESPONSE_FLAG rows))))%Q) /\
  (flagged CONVERSION_FLAG rows <> [] ->
   (forall r, In r (flagged CONVERSION_FLAG rows) ->
      CONVERSION_DATE r <> None /\ DEPLOYMENT_DATE r <> None) ->
   Campaign.avg_days_to_conversion g
   = Some (inject_Z (fold_right Z.add 0%Z
                       (flat_map (days_after_deployment CONVERSION_DATE)
                                 (flagged CONVERSION_FLAG rows)))
           / inject_Z (Z.of_nat (List.length (flagged CONVERSION_FLAG rows))))%Q).
Proof.
  intros Hin rows. destruct (df_campaign_performance_records _ _ _ Hin) as (Hg & _).
  fold rows in Hg. rewrite Hg.
  cbn [Campaign.avg_days_to_response Campaign.avg_days_to_conversion Campaign.aggregate].
  unfold Campaign.days_to_response, Campaign.days_to_conversion.
  rewrite !avg_when_flag.
  split; [ reflexivity | ]. split; [ reflexivity | ].
  split; [ | split; [ | split ] ].
  - intros Hnone. unfold mean_days_over. now rewrite flagged_none.
  - intros Hnone. unfold mean_days_over. now rewrite flagged_none.
  - apply mean_days_over_dated.
  - apply mean_days_over_dated.
Qed.

Lemma avg_days_over_flagged_records_witness :
  exists g,
    In g (df_campaign_performance ansi_on (df_deployments 40 timed_contacts)) /\
    Campaign.avg_days_to_response g = Some (11 # 2)%Q /\
    Campaign.avg_days_to_conversion g
    = Some (inject_Z 14 / inject_Z 2)%Q.
Proof.
  assert (Hin : In (nth 0 (df_campaign_performance ansi_on (df_deployments 40 timed_contacts))
                          (Campaign.aggregate ansi_on (None, None, None, None) []))
                   (df_campaign_performance ansi_on (df_deployments 40 timed_contacts)))
    by (vm_compute; left; reflexivity).
  destruct (avg_days_over_flagged_records _ _ _ Hin) as (Hresp & _ & _ & _ & _ & Hconv).
  eexists. split; [ exact Hin | ]. split.
  - rewrite Hresp. vm_compute. reflexivity.
  - rewrite Hconv.
    + vm_compute. reflexivity.
    + vm_compute. discriminate.
    + intros r Hr. vm_compute in Hr.
      destruct Hr as [ <- | [ <- | [] ] ]; split; discriminate.
Defined.

(** ** Client engagement *)

Lemma df_client_engagement_row (conf : SessionConf) (today : Z) (deployments : list Deployment)
    (g : Engagement.row) :
  In g (df_client_engagement conf today deployments) ->
  exists rows,
    In (Engagement.client g, rows)
       (group_by option_string_dec CLIENT_ID deployments) /\
    g = Engagement.aggregate conf today (Engagement.client g) rows.
Proof.
  unfold df_client_engagement. intros Hin. apply in_map_iff in Hin.
  destruct Hin as ((k & rows) & <- & Hin). exists rows. simpl. auto.
Qed.

(** A row of the engagement table aggregates the records of its client. *)
Lemma df_client_engagement_records (conf : SessionConf) (today : Z)
    (deployments : list Deployment) (g : Engagement.row) :
  In g (df_client_engagement conf today deployments) ->
  g = Engagement.aggregate conf today (Engagement.client g)
        (client_records (Engagement.client g) deployments) /\
  client_records (Engagement.client g) deployments <> [].
Proof.
  intros Hin. destruct (df_client_engagement_row _ _ _ _ Hin) as (rows & Hgroup & Hg).
  destruct (group_by_rows _ _ _ _ _ Hgroup) as (Hrows & r & Hr & _).
  change (filter (key_is option_string_dec CLIENT_ID (Engagement.client g)) deployments)
    with (client_records (Engagement.client g) deployments) in Hrows.
  rewrite <- Hrows. split; [ exact Hg | ]. intros ->. contradiction.
Qed.

Lemma count_present {A : Type} (col : Deployment -> option A)
    (rows : list Deployment) :
  count (map col rows) = Z.of_nat (List.length (present col rows)).
Proof. unfold count. now rewrite values_present. Qed.

(** C8, as amended: response_rate = total_responses / total_contacts and
    conversion_rate = total_conversions / total_contacts are plain
    divisions, with no guard of their own.  Every client group arises from
    at least one record; total_contacts counts the records of the client
    that carry a TACTIC_ID and is 0 exactly when none of them does; a rate
    is then never 0: it is null when the client has no value of the flag,
    and otherwise null in a session with ANSI mode off and a
    divide-by-zero fault in a session with ANSI mode on. *)
Theorem engagement_rates_unguarded (conf : SessionConf) (today : Z)
    (deployments : list Deployment) (g : Engagement.row) :
  In g (df_client_engagement conf today deployments) ->
  let rows := client_records (Engagement.client g) deployments in
  rows <> [] /\
  Engagement.total_contacts g = Z.of_nat (List.length (present TACTIC_ID rows)) /\
  Engagement.total_responses g = flag_total RESPONSE_FLAG rows /\
  Engagement.total_conversions g = flag_total CONVERSION_FLAG rows /\
  (Engagement.total_contacts g = 0 <->
   forall r, In r deployments -> CLIENT_ID r = Engagement.client g ->
             TACTIC_ID r = None) /\
  (Engagement.total_contacts g <> 0 ->
   Engagement.response_rate g
   = Value (option_map (fun s => (inject_Z s / inject_Z (Engagement.total_contacts g))%Q)
                       (Engagement.total_responses g)) /\
   Engagement.conversion_rate g
   = Value (option_map (fun s => (inject_Z s / inject_Z (Engagement.total_contacts g))%Q)
                       (Engagement.total_conversions g))) /\
  (Engagement.total_contacts g = 0 ->
   Engagement.response_rate g
   = match Engagement.total_responses g with
     | None => Value None
     | Some _ => if spark_sql_ansi_enabled conf then DivideByZero else Value None
     end /\
   Engagement.conversion_rate g
   = match Engagement.total_conversions g with
     | None => Value None
     | Some _ => if spark_sql_ansi_enabled conf then DivideByZero else Value None
     end).
Proof.
  intros Hin rows.
  destruct (df_client_engagement_records _ _ _ _ Hin) as (Hg & Hne).
  fold rows in Hg, Hne.
  split; [ exact Hne | ].
  assert (Hzero : Engagement.total_contacts g = 0 <->
                  forall r, In r deployments -> CLIENT_ID r = Engagement.client g ->
                            TACTIC_ID r = None).
  { rewrite Hg at 1. cbn [Engagement.total_contacts Engagement.aggregate].
    rewrite count_none_present. unfold rows, client_records.
    split.
    - intros Hnone r Hr Hc. apply Hnone. apply filter_In. split; [ exact Hr | ].
      destruct (option_string_dec (CLIENT_ID r) (Engagement.client g));
        [ reflexivity | contradiction ].
    - intros Hnone r Hr. apply filter_In in Hr. destruct Hr as (Hr & Hc).
      apply Hnone; [ exact Hr | ].
      destruct (option_string_dec (CLIENT_ID r) (Engagement.client g));
        [ assumption | discriminate ]. }
  split; [ rewrite Hg at 1; apply count_present | ].
  split; [ rewrite Hg at 1; apply sum_flag_total | ].
  split; [ rewrite Hg at 1; apply sum_flag_total | ].
  split; [ exact Hzero | ].
  clear Hzero. rewrite Hg.
  cbn [Engagement.total_contacts Engagement.total_responses
       Engagement.total_conversions Engagement.response_rate
       Engagement.conversion_rate Engagement.aggregate].
  unfold divide, to_double. cbn [option_map]. rewrite Qeq_bool_inject_Z_0.
  destruct (sum (map RESPONSE_FLAG rows)) as [ s | ];
    destruct (sum (map CONVERSION_FLAG rows)) as [ t | ]; cbn [option_map];
    destruct (count (map TACTIC_ID rows) =? 0) eqn:E;
    [ apply Z.eqb_eq in E | apply Z.eqb_neq in E
    | apply Z.eqb_eq in E | apply Z.eqb_neq in E
    | apply Z.eqb_eq in E | apply Z.eqb_neq in E
    | apply Z.eqb_eq in E | apply Z.eqb_neq in E ];
    (split; [ intros Hne'; first [ contradiction | split; reflexivity ]
            | intros Heq; first [ contradiction | split; reflexivity ] ]).
Qed.

Lemma engagement_rates_unguarded_witness :
  (exists g, In g (df_client_engagement ansi_on 40 (df_deployments 40 three_contacts)) /\
     Engagement.total_contacts g = 3 /\
     Engagement.total_responses g = Some 1 /\
     Engagement.response_rate g = Value (Some (1 # 3)%Q)) /\
  (exists g, In g (df_client_engagement ansi_on 40 (df_deployments 40 lone_unnamed)) /\
     Engagement.total_contacts g = 0 /\
     Engagement.response_rate g = DivideByZero).
Proof.
  split.
  - assert (Hin : In (nth 0 (df_client_engagement ansi_on 40 (df_deployments 40 three_contacts))
                            (Engagement.aggregate ansi_on 0 None []))
                     (df_client_engagement ansi_on 40 (df_deployments 40 three_contacts)))
      by (vm_compute; left; reflexivity).
    destruct (engagement_rates_unguarded _ _ _ _ Hin)
      as (_ & Hcontacts & Hresp & _ & _ & Hrate & _).
    eexists. split; [ exact Hin | ].
    split; [ rewrite Hcontacts; vm_compute; reflexivity | ].
    split; [ rewrite Hresp; vm_compute; reflexivity | ].
    destruct Hrate as (Hrate & _); [ rewrite Hcontacts; vm_compute; discriminate | ].
    rewrite Hrate, Hresp, Hcontacts. vm_compute. reflexivity.
  - assert (Hin : In (nth 0 (df_client_engagement ansi_on 40 (df_deployments 40 lone_unnamed))
                            (Engagement.aggregate ansi_on 0 None []))
                     (df_client_engagement ansi_on 40 (df_deployments 40 lone_unnamed)))
      by (vm_compute; left; reflexivity).
    destruct (engagement_rates_unguarded _ _ _ _ Hin)
      as (_ & Hcontacts & Hresp & _ & _ & _ & Hrate).
    eexists. split; [ exact Hin | ].
    split; [ rewrite Hcontacts; vm_compute; reflexivity | ].
    destruct Hrate as (Hrate & _); [ rewrite Hcontacts; vm_compute; reflexivity | ].
    rewrite Hrate, Hresp. vm_compute. reflexivity.
Defined.

(** C8, as stated, fails for a client whose only line has no TACTIC_ID: the
    group arises from one record, total_contacts is 0, and the rates are
    null in a session with ANSI mode off and a divide-by-zero fault in a
    session with ANSI mode on, where the claim has 0 and no fault. *)
Lemma engagement_rate_null_not_zero :
  map (fun g => (Engagement.total_contacts g, Engagement.total_responses g,
                 Engagement.response_rate g, Engagement.conversion_rate g))
      (df_client_engagement ansi_off 40 (df_deployments 40 lone_unnamed))
  = [(0, Some 1, Value None, Value None)]
  /\ map (fun g => (Engagement.total_contacts g, Engagement.total_responses g,
                    Engagement.response_rate g, Engagement.conversion_rate g))
         (df_client_engagement ansi_on 40 (df_deployments 40 lone_unnamed))
     = [(0, Some 1, DivideByZero, DivideByZero)]
  /\ ~ (forall g, In g (df_client_engagement ansi_off 40 (df_deployments 40 lone_unnamed)) ->
        Engagement.total_contacts g = 0 ->
        Engagement.response_rate g = Value (Some (0 # 1)%Q)).
Proof.
  split; [ vm_compute; reflexivity | ].
  split; [ vm_compute; reflexivity | ].
  intros Hall.
  specialize (Hall (Engagement.aggregate ansi_off 40 (Some "C9"%string) lone_unnamed)).
  assert (Hin : In (Engagement.aggregate ansi_off 40 (Some "C9"%string) lone_unnamed)
                   (df_client_engagement ansi_off 40 (df_deployments 40 lone_unnamed)))
    by (vm_compute; left; reflexivity).
  specialize (Hall Hin eq_refl). vm_compute in Hall. discriminate.
Qed.

(** ** Optimal contact frequency *)

(** C4, on every batch: the joined frame has two columns named CHANNEL
    (and two each named RESPONSE_FLAG, CONVERSION_FLAG and REVENUE), one
    from each input of the join, so the CHANNEL of [groupBy] is refused
    and df_optimal_frequency is no table: no bucket is returned, of
    whatever sample_size. *)
Theorem optimal_frequency_ambiguous_channel
    (contact_frequency : list ContactFrequency) (deployments : list Deployment) :
  df_optimal_frequency contact_frequency deployments = AnalysisException /\
  filter (fun c => String.eqb (fst c) "CHANNEL")
         (Optimal.joined_columns "TACTIC_ID" contact_frequency_columns
                                 outcome_columns)
  = [("CHANNEL"%string, Optimal.LeftInput); ("CHANNEL"%string, Optimal.RightInput)].
Proof. split; reflexivity. Qed.

Lemma join_on_tactic_id_In (left : list ContactFrequency) (right : list Outcome)
    (w : ContactFrequency) (o : Outcome) :
  In (w, o) (join_on_tactic_id left right) <->
  In w left /\ In o right /\ tactic_matches w o = true.
Proof.
  unfold join_on_tactic_id. rewrite in_flat_map. split.
  - intros (w' & Hw' & Hin). apply in_map_iff in Hin.
    destruct Hin as (o' & Heq & Ho'). inversion Heq; subst w' o'.
    apply filter_In in Ho'. tauto.
  - intros (Hw & Ho & Hmatch). exists w. split; [ exact Hw | ].
    apply in_map. apply filter_In. tauto.
Qed.

(** With distinct TACTIC_IDs, a row matches its own projection only. *)
Lemma own_outcome_only (deployments : list Deployment) (w : ContactFrequency) :
  NoDup (map TACTIC_ID deployments) ->
  In (cf_row w) deployments ->
  TACTIC_ID (cf_row w) <> None ->
  filter (tactic_matches w) (map select_outcome deployments)
  = [select_outcome (cf_row w)].
Proof.
  unfold tactic_matches.
  destruct (TACTIC_ID (cf_row w)) as [ t | ] eqn:Et; [ | congruence ].
  intros Hnodup Hin _.
  assert (Hnone : forall l, ~ In (Some t) (map TACTIC_ID l) ->
            filter (fun o => match o_TACTIC_ID o with
                             | Some b => String.eqb t b
                             | None => false
                             end) (map select_outcome l) = []).
  { induction l as [ | s l IH ]; simpl; intros Hfresh; [ reflexivity | ].
    destruct (TACTIC_ID s) as [ b | ] eqn:Es.
    - destruct (String.eqb_spec t b) as [ -> | _ ]; [ tauto | ]. apply IH. tauto.
    - apply IH. tauto. }
  induction deployments as [ | s l IH ]; simpl in *; [ contradiction | ].
  inversion Hnodup as [ | ? ? Hfresh Hnodup' ]; subst.
  destruct Hin as [ -> | Hin ].
  - rewrite Et, String.eqb_refl. f_equal. apply Hnone. now rewrite <- Et.
  - assert (Hne : TACTIC_ID s <> Some t).
    { intros Hs. apply Hfresh. rewrite Hs, <- Et. now apply in_map. }
    destruct (TACTIC_ID s) as [ b | ].
    + destruct (String.eqb_spec t b) as [ -> | _ ]; [ congruence | now apply IH ].
    + now apply IH.
Qed.

(** C5, as amended: the join is an inner join on TACTIC_ID and raises
    nothing: it returns exactly the pairs of a window record and a source
    record with equal, non-null TACTIC_IDs.  It is 1:1, each window record
    paired once, with its own source record, when every record carries a
    TACTIC_ID and no TACTIC_ID occurs twice. *)
Theorem join_pairs_by_tactic_id (deployments : list Deployment)
    (contact_frequency : list ContactFrequency) :
  contact_frequency_run deployments contact_frequency ->
  let joined :=
    join_on_tactic_id contact_frequency (map select_outcome deployments) in
  (forall w o, In (w, o) joined <->
     In w contact_frequency /\ In o (map select_outcome deployments) /\
     tactic_matches w o = true) /\
  ((forall r, In r deployments -> TACTIC_ID r <> None) ->
   NoDup (map TACTIC_ID deployments) ->
   joined = map (fun w => (w, select_outcome (cf_row w))) contact_frequency).
Proof.
  intros Hrun joined. split.
  - intros w o. apply join_on_tactic_id_In.
  - intros Hnamed Hnodup. unfold joined, join_on_tactic_id.
    assert (Hrows : forall w, In w contact_frequency -> In (cf_row w) deployments).
    { intros w Hw. destruct (run_row_in_partition _ _ _ Hrun Hw) as (_ & _ & _ & H & _).
      exact H. }
    clear Hrun joined.
    induction contact_frequency as [ | w ws IH ]; simpl; [ reflexivity | ].
    rewrite own_outcome_only, IH; auto using in_cons, in_eq.
Qed.

Lemma join_pairs_by_tactic_id_witness :
  join_on_tactic_id (df_contact_frequency (df_deployments 40 three_contacts))
                    (map select_outcome (df_deployments 40 three_contacts))
  = map (fun w => (w, select_outcome (cf_row w)))
        (df_contact_frequency (df_deployments 40 three_contacts)).
Proof.
  destruct (join_pairs_by_tactic_id (df_deployments 40 three_contacts) _
              (df_contact_frequency_run _)) as (_ & Hone).
  apply Hone.
  - intros r Hr. vm_compute in Hr.
    destruct Hr as [ <- | [ <- | [ <- | [] ] ] ]; discriminate.
  - repeat constructor; simpl; intuition discriminate.
Defined.

(** C5, as stated, fails twice: a window record without TACTIC_ID matches
    no source record and is left out of the join, which returns the empty
    table; and two lines with one TACTIC_ID give each window record two
    matching source records. *)
Lemma join_drops_and_duplicates :
  map (fun w => TACTIC_ID (cf_row w))
      (df_contact_frequency (df_deployments 40 lone_unnamed)) = [None] /\
  join_on_tactic_id (df_contact_frequency (df_deployments 40 lone_unnamed))
                    (map select_outcome (df_deployments 40 lone_unnamed)) = [] /\
  map (fun w => List.length
                  (filter (tactic_matches w)
                          (map select_outcome (df_deployments 40 repeated_tactic))))
      (df_contact_frequency (df_deployments 40 repeated_tactic)) = [2%nat; 2%nat].
Proof. repeat split; vm_compute; reflexivity. Qed.

(** ** Rates as means of flags *)

Lemma values_all_present {A : Type} (flag : A -> option Z) (rows : list A) :
  (forall r, In r rows -> is_0_or_1 (flag r)) ->
  List.length (values (map flag rows)) = List.length rows /\
  0 <= Zsum (values (map flag rows)) <= Z.of_nat (List.length rows).
Proof.
  unfold Zsum.
  induction rows as [ | r rows IH ]; intros Hflags; [ simpl; lia | ].
  destruct IH as (IHlen & IHsum); [ intros s Hs; apply Hflags; now right | ].
  cbn [map values].
  destruct (Hflags r (or_introl eq_refl)) as [ E | E ]; rewrite E;
    cbn [values List.length fold_right]; rewrite IHlen, Nat2Z.inj_succ;
    split; lia.
Qed.

Lemma avg_is_mean (flag : Deployment -> option Z) (rows : list Deployment) :
  rows <> [] ->
  (forall r, In r rows -> is_0_or_1 (flag r)) ->
  avg (map flag rows) = Some (mean_flag flag rows).
Proof.
  intros Hne Hflags. unfold avg, mean_flag.
  destruct (values_all_present flag rows Hflags) as (Hlen & _).
  destruct (values (map flag rows)) as [ | v vs ] eqn:E.
  - destruct rows; [ congruence | discriminate ].
  - now rewrite Hlen.
Qed.

Lemma sum_is_total (flag : Deployment -> option Z) (rows : list Deployment) :
  rows <> [] ->
  (forall r, In r rows -> is_0_or_1 (flag r)) ->
  sum (map flag rows) = Some (Zsum (values (map flag rows))).
Proof.
  intros Hne Hflags. unfold sum.
  destruct (values_all_present flag rows Hflags) as (Hlen & _).
  destruct (values (map flag rows)) as [ | v vs ] eqn:E; [ | reflexivity ].
  destruct rows; [ congruence | discriminate ].
Qed.

(** The mean of 0/1 flags is a fraction. *)
Lemma mean_flag_fraction (flag : Deployment -> option Z) (rows : list Deployment) :
  rows <> [] ->
  (forall r, In r rows -> is_0_or_1 (flag r)) ->
  (0 <= mean_flag flag rows <= 1)%Q.
Proof.
  intros Hne Hflags. unfold mean_flag.
  destruct (values_all_present flag rows Hflags) as (_ & Hsum).
  assert (Hpos : (0 < inject_Z (Z.of_nat (List.length rows)))%Q).
  { change 0%Q with (inject_Z 0). rewrite <- Zlt_Qlt.
    destruct rows; [ congruence | simpl List.length; lia ]. }
  split.
  - apply Qle_shift_div_l; [ exact Hpos | ].
    rewrite Qmult_0_l. change 0%Q with (inject_Z 0). rewrite <- Zle_Qle. lia.
  - apply Qle_shift_div_r; [ exact Hpos | ].
    rewrite Qmult_1_l. rewrite <- Zle_Qle. lia.
Qed.

Lemma percent_of_fraction (q : Q) :
  (0 <= q <= 1)%Q -> (0 <= q * (100 # 1) <= 100 # 1)%Q.
Proof.
  intros (H0 & H1). split.
  - apply Qmult_le_0_compat; [ exact H0 | discriminate ].
  - apply Qle_trans with (1 * (100 # 1))%Q.
    + apply Qmult_le_compat_r; [ exact H1 | discriminate ].
    + rewrite Qmult_1_l. apply Qle_refl.
Qed.

Lemma group_nonempty {A K : Type} (K_eq_dec : forall x y : K, {x = y} + {x <> y})
    (key : A -> K) (rows : list A) (k : K) (g : list A) :
  In (k, g) (group_by K_eq_dec key rows) -> g <> [] /\ incl g rows.
Proof.
  intros Hin. destruct (group_by_rows _ _ _ _ _ Hin) as (Hg & r & Hr & _). split.
  - intros ->. contradiction.
  - intros s Hs. rewrite Hg in Hs. now apply filter_In in Hs.
Qed.

(** C10, as amended: over 0/1 flags, the monthly response_rate and
    conversion_rate and the frequency-impact avg_response_rate and
    avg_conversion_rate are the plain means of the flags of their group and
    lie in [0,1]; the campaign response_rate and conversion_rate of a group
    whose records all carry a TACTIC_ID are those means times 100 and lie
    in [0,100]. *)
Theorem rates_on_two_scales (conf : SessionConf) (deployments : list Deployment) :
  (forall r, In r deployments ->
     is_0_or_1 (RESPONSE_FLAG r) /\ is_0_or_1 (CONVERSION_FLAG r)) ->
  (forall m, In m (df_monthly_trends deployments) ->
     exists rows,
       In (Monthly.group m, rows)
          (group_by Monthly.key_dec Monthly.key_of deployments) /\
       Monthly.response_rate m = Some (mean_flag RESPONSE_FLAG rows) /\
       Monthly.conversion_rate m = Some (mean_flag CONVERSION_FLAG rows) /\
       (0 <= mean_flag RESPONSE_FLAG rows <= 1)%Q /\
       (0 <= mean_flag CONVERSION_FLAG rows <= 1)%Q) /\
  (forall contact_frequency f,
     contact_frequency_run deployments contact_frequency ->
     In f (df_frequency_impact contact_frequency) ->
     exists ws,
       In (FrequencyImpact.bucket f, ws)
          (group_by Z.eq_dec contacts_last_30d contact_frequency) /\
       FrequencyImpact.avg_response_rate f
       = Some (mean_flag RESPONSE_FLAG (map cf_row ws)) /\
       FrequencyImpact.avg_conversion_rate f
       = Some (mean_flag CONVERSION_FLAG (map cf_row ws)) /\
       (0 <= mean_flag RESPONSE_FLAG (map cf_row ws) <= 1)%Q /\
       (0 <= mean_flag CONVERSION_FLAG (map cf_row ws) <= 1)%Q) /\
  (forall c, In c (df_campaign_performance conf deployments) ->
     exists rows,
       In (Campaign.group c, rows)
          (group_by Campaign.key_dec Campaign.key_of deployments) /\
       ((forall r, In r rows -> TACTIC_ID r <> None) ->
        Campaign.response_rate c
        = Value (Some (mean_flag RESPONSE_FLAG rows * (100 # 1))%Q) /\
        Campaign.conversion_rate c
        = Value (Some (mean_flag CONVERSION_FLAG rows * (100 # 1))%Q) /\
        (0 <= mean_flag RESPONSE_FLAG rows * (100 # 1) <= 100 # 1)%Q /\
        (0 <= mean_flag CONVERSION_FLAG rows * (100 # 1) <= 100 # 1)%Q)).
Proof.
  intros Hflags. repeat apply conj.
  - intros m Hm. unfold df_monthly_trends in Hm.
    apply order_by_In, in_map_iff in Hm.
    destruct Hm as ((k & rows) & <- & Hgroup). exists rows. simpl.
    destruct (group_nonempty _ _ _ _ _ Hgroup) as (Hne & Hincl).
    assert (Hr : forall r, In r rows -> is_0_or_1 (RESPONSE_FLAG r))
      by (intros r Hr; now apply Hflags, Hincl).
    assert (Hc : forall r, In r rows -> is_0_or_1 (CONVERSION_FLAG r))
      by (intros r Hr'; now apply Hflags, Hincl).
    rewrite !avg_is_mean by assumption.
    split; [ exact Hgroup | ]. split; [ reflexivity | ]. split; [ reflexivity | ].
    split; apply mean_flag_fraction; assumption.
  - intros cf f Hrun Hf. unfold df_frequency_impact in Hf.
    apply order_by_In, in_map_iff in Hf.
    destruct Hf as ((k & ws) & <- & Hgroup). exists ws. simpl.
    destruct (group_nonempty _ _ _ _ _ Hgroup) as (Hne & Hincl).
    assert (Hne' : map cf_row ws <> []) by (destruct ws; [ congruence | discriminate ]).
    assert (Hin : forall r, In r (map cf_row ws) -> In r deployments).
    { intros r Hr. apply in_map_iff in Hr. destruct Hr as (w & <- & Hw).
      destruct (run_row_in_partition _ _ _ Hrun (Hincl _ Hw)) as (_ & _ & _ & H & _).
      exact H. }
    assert (Hr : forall r, In r (map cf_row ws) -> is_0_or_1 (RESPONSE_FLAG r))
      by (intros r Hr; now apply Hflags, Hin).
    assert (Hc : forall r, In r (map cf_row ws) -> is_0_or_1 (CONVERSION_FLAG r))
      by (intros r Hr'; now apply Hflags, Hin).
    rewrite <- (map_map cf_row RESPONSE_FLAG), <- (map_map cf_row CONVERSION_FLAG).
    rewrite !avg_is_mean by assumption.
    split; [ exact Hgroup | ]. split; [ reflexivity | ]. split; [ reflexivity | ].
    split; apply mean_flag_fraction; assumption.
  - intros c Hc. destruct (df_campaign_performance_row _ _ _ Hc) as (rows & Hgroup & ->).
    exists rows. split; [ exact Hgroup | ]. intros Hnamed. simpl.
    destruct (group_nonempty _ _ _ _ _ Hgroup) as (Hne & Hincl).
    assert (Hr : forall r, In r rows -> is_0_or_1 (RESPONSE_FLAG r))
      by (intros r Hr; now apply Hflags, Hincl).
    assert (Hcv : forall r, In r rows -> is_0_or_1 (CONVERSION_FLAG r))
      by (intros r Hr'; now apply Hflags, Hincl).
    rewrite !sum_is_total by assumption.
    rewrite (count_all_present TACTIC_ID rows Hnamed).
    unfold divide, to_double. simpl.
    rewrite Qeq_bool_inject_Z_0.
    replace (Z.of_nat (List.length rows) =? 0) with false
      by (symmetry; apply Z.eqb_neq;
          destruct rows; [ congruence | simpl List.length; lia ]).
    simpl. fold (mean_flag RESPONSE_FLAG rows). fold (mean_flag CONVERSION_FLAG rows).
    split; [ reflexivity | ]. split; [ reflexivity | ].
    split; apply percent_of_fraction, mean_flag_fraction; assumption.
Qed.

Lemma three_contacts_flags (r : Deployment) :
  In r three_contacts ->
  is_0_or_1 (RESPONSE_FLAG r) /\ is_0_or_1 (CONVERSION_FLAG r).
Proof.
  intros [ <- | [ <- | [ <- | [] ] ] ]; split; (now left) || (now right).
Defined.

Lemma rates_on_two_scales_witness :
  (exists m q, In m (df_monthly_trends three_contacts) /\
     Monthly.response_rate m = Some q /\ (0 <= q <= 1)%Q) /\
  (exists c q, In c (df_campaign_performance ansi_off three_contacts) /\
     Campaign.response_rate c = Value (Some q) /\ (0 <= q <= 100 # 1)%Q).
Proof.
  destruct (rates_on_two_scales ansi_off three_contacts three_contacts_flags)
    as (Hmonthly & _ & Hcampaign).
  split.
  - assert (Hin : In (nth 0 (df_monthly_trends three_contacts)
                            (Monthly.aggregate (None, None) []))
                     (df_monthly_trends three_contacts))
      by (vm_compute; left; reflexivity).
    destruct (Hmonthly _ Hin) as (rows & _ & Hrate & _ & Hbound & _).
    eexists. exists (mean_flag RESPONSE_FLAG rows).
    split; [ exact Hin | ]. split; [ exact Hrate | exact Hbound ].
  - assert (Hin : In (nth 0 (df_campaign_performance ansi_off three_contacts)
                            (Campaign.aggregate ansi_off (None, None, None, None) []))
                     (df_campaign_performance ansi_off three_contacts))
      by (vm_compute; left; reflexivity).
    destruct (Hcampaign _ Hin) as (rows & Hgroup & Hscaled).
    assert (Hrows : rows = three_contacts).
    { vm_compute in Hgroup. destruct Hgroup as [ Hgroup | [] ].
      inversion Hgroup. reflexivity. }
    destruct Hscaled as (Hrate & _ & Hbound & _).
    { intros r Hr. rewrite Hrows in Hr.
      destruct Hr as [ <- | [ <- | [ <- | [] ] ] ]; discriminate. }
    eexists. exists (mean_flag RESPONSE_FLAG rows * (100 # 1))%Q.
    split; [ exact Hin | ]. split; [ exact Hrate | exact Hbound ].
Defined.

(** C10, as stated, fails for a campaign group with a line without
    TACTIC_ID: two lines with RESPONSE_FLAG 1, one of them counted, give
    response_rate 2 / 1 * 100 = 200. *)
Lemma campaign_rate_above_100 :
  (forall r, In r (df_deployments 40 unnamed_and_named) ->
     is_0_or_1 (RESPONSE_FLAG r) /\ is_0_or_1 (CONVERSION_FLAG r)) /\
  map (fun c => (Campaign.total_deployments c, Campaign.total_responses c,
                 Campaign.response_rate c))
      (df_campaign_performance ansi_off (df_deployments 40 unnamed_and_named))
  = [(1, Some 2, Value (Some (200 # 1)%Q))] /\
  map (fun c => (Campaign.total_deployments c, Campaign.total_responses c,
                 Campaign.response_rate c))
      (df_campaign_performance ansi_on (df_deployments 40 unnamed_and_named))
  = [(1, Some 2, Value (Some (200 # 1)%Q))] /\
  ~ (200 # 1 <= 100 # 1)%Q.
Proof.
  split; [ | split; [ | split ] ].
  - intros r Hr. vm_compute in Hr.
    destruct Hr as [ <- | [ <- | [] ] ]; split; now right.
  - vm_compute. reflexivity.
  - vm_compute. reflexivity.
  - vm_compute. intros H. now apply H.
Qed.

(** * Further properties of the pipeline *)

(** ** Grouping loses and repeats nothing *)

Lemma flat_map_ext_on {A B : Type} (f g : A -> list B) (l : list A) :
  (forall x, In x l -> f x = g x) -> flat_map f l = flat_map g l.
Proof.
  intros Hfg. rewrite !flat_map_concat_map. f_equal. now apply map_ext_in.
Qed.

Section PartitionFacts.

Context {A K : Type}.
Variable K_eq_dec : forall x y : K, {x = y} + {x <> y}.
Variable key : A -> K.

Lemma distinct_NoDup (ks : list K) : NoDup (distinct K_eq_dec ks).
Proof.
  induction ks as [ | k ks IH ]; simpl; constructor.
  - intros Hin. apply filter_In in Hin. destruct Hin as (_ & Hne).
    cbv beta in Hne. destruct (K_eq_dec k k); [ discriminate Hne | congruence ].
  - now apply NoDup_filter.
Qed.

Lemma filter_split (f : A -> bool) (l : list A) :
  Permutation l (filter f l ++ filter (fun x => negb (f x)) l).
Proof.
  induction l as [ | x l IH ]; simpl; [ constructor | ].
  destruct (f x); simpl.
  - now constructor.
  - now apply Permutation_cons_app.
Qed.

Lemma filter_within (f g : A -> bool) (l : list A) :
  (forall x, f x = true -> g x = true) -> filter f (filter g l) = filter f l.
Proof.
  intros Himp. induction l as [ | x l IH ]; simpl; [ reflexivity | ].
  destruct (g x) eqn:Eg; simpl.
  - now rewrite IH.
  - destruct (f x) eqn:Ef; [ | exact IH ].
    apply Himp in Ef. congruence.
Qed.

Lemma keyed_partition_perm (ks : list K) :
  NoDup ks ->
  forall rows, (forall r, In r rows -> In (key r) ks) ->
  Permutation rows (flat_map (fun k => filter (key_is K_eq_dec key k) rows) ks).
Proof.
  induction 1 as [ | k ks Hfresh Hnodup IH ]; intros rows Hcover; simpl.
  - destruct rows as [ | r rows ]; [ constructor | ].
    destruct (Hcover r (or_introl eq_refl)).
  - rewrite (filter_split (key_is K_eq_dec key k) rows) at 1.
    apply Permutation_app_head.
    set (others := filter (fun r => negb (key_is K_eq_dec key k r)) rows).
    assert (Hothers : forall r, In r others -> In (key r) ks).
    { intros r Hr. apply filter_In in Hr. destruct Hr as (Hr & Hk).
      destruct (Hcover r Hr) as [ Heq | Hin ]; [ | exact Hin ].
      exfalso. apply negb_true_iff in Hk.
      assert (Hyes : key_is K_eq_dec key k r = true)
        by (apply key_is_true; congruence).
      congruence. }
    rewrite (IH others Hothers).
    replace (flat_map (fun k' => filter (key_is K_eq_dec key k') others) ks)
      with (flat_map (fun k' => filter (key_is K_eq_dec key k') rows) ks);
      [ reflexivity | ].
    apply flat_map_ext_on. intros k' Hk'. symmetry. apply filter_within.
    intros r Hr. apply key_is_true in Hr. unfold key_is.
    destruct (K_eq_dec (key r) k); [ | reflexivity ]. congruence.
Qed.

(** The groups of [groupBy] hold every row once. *)
Lemma group_by_perm (rows : list A) :
  Permutation rows (flat_map snd (group_by K_eq_dec key rows)).
Proof.
  unfold group_by. rewrite flat_map_concat_map, map_map, <- flat_map_concat_map.
  simpl. apply keyed_partition_perm.
  - apply distinct_NoDup.
  - intros r Hr. apply distinct_complete. now apply in_map.
Qed.

Lemma group_by_keys (rows : list A) :
  map fst (group_by K_eq_dec key rows) = distinct K_eq_dec (map key rows).
Proof. unfold group_by. rewrite map_map. simpl. apply map_id. Qed.

End PartitionFacts.

Lemma count_app {A : Type} (c1 c2 : list (option A)) :
  count (c1 ++ c2) = count c1 + count c2.
Proof.
  unfold count.
  induction c1 as [ | [ v | ] c1 IH ]; cbn [app values List.length];
    rewrite ?Nat2Z.inj_succ; lia.
Qed.

Lemma count_flat_map {A B C : Type} (col : B -> option C) (f : A -> list B)
    (l : list A) :
  count (map col (flat_map f l)) = Zsum (map (fun x => count (map col (f x))) l).
Proof.
  induction l as [ | x l IH ]; simpl; [ reflexivity | ].
  now rewrite map_app, count_app, IH.
Qed.

(** The sum of a per-group count over the groups is the count over the
    whole frame. *)
Lemma grouped_count_total {A K C : Type}
    (K_eq_dec : forall x y : K, {x = y} + {x <> y}) (key : A -> K)
    (col : A -> option C) (rows : list A) :
  Zsum (map (fun g => count (map col (snd g))) (group_by K_eq_dec key rows))
  = count (map col rows).
Proof.
  rewrite <- count_flat_map. symmetry.
  apply count_map_perm, group_by_perm.
Qed.

(** ** The analysis window *)

(** X1: the rows of df_deployments all carry a DEPLOYMENT_DATE, and any two
    of them lie at most 548 days apart. *)
Theorem df_deployments_span (today : Z) (csv : list Deployment) (r s : Deployment) :
  In r (df_deployments today csv) -> In s (df_deployments today csv) ->
  exists d e,
    DEPLOYMENT_DATE r = Some d /\ DEPLOYMENT_DATE s = Some e /\
    Z.abs (d - e) <= 548 /\ d <= today /\ e <= today.
Proof.
  intros Hr Hs.
  destruct (df_deployments_dated _ _ _ Hr) as (d & Ed & Hd).
  destruct (df_deployments_dated _ _ _ Hs) as (e & Ee & He).
  exists d, e. repeat split; try assumption; lia.
Qed.

Lemma df_deployments_span_witness :
  exists d e,
    DEPLOYMENT_DATE day1 = Some d /\ DEPLOYMENT_DATE day40 = Some e /\
    Z.abs (d - e) <= 548 /\ d <= 40 /\ e <= 40.
Proof.
  apply (df_deployments_span 40 three_contacts day1 day40).
  - vm_compute. left. reflexivity.
  - vm_compute. right. right. left. reflexivity.
Defined.

(** ** Rows in, rows out *)

Lemma window_rows_source (p : list Deployment) : map cf_row (window_rows p) = p.
Proof. apply window_scan_rows. Qed.

Lemma run_rows_perm (batch : list Deployment) (out : list ContactFrequency) :
  contact_frequency_run batch out -> Permutation batch (map cf_row out).
Proof.
  intros (parts & Hparts & ->).
  rewrite (keyed_partition_perm option_string_dec CLIENT_ID (clients batch)
             (distinct_NoDup _ _) batch)
    by (intros r Hr; apply distinct_complete; now apply in_map).
  fold (client_partition).
  change (fun k => filter (key_is option_string_dec CLIENT_ID k) batch)
    with (fun k => client_partition k batch).
  induction Hparts as [ | c p cs ps (Hperm & _) _ IH ]; simpl; [ constructor | ].
  rewrite map_app, window_rows_source.
  apply Permutation_app; assumption.
Qed.

(** X2: in every execution df_contact_frequency holds the rows of the
    batch, each as often as the batch has it: the window columns are added
    and no row is dropped or repeated, a null CLIENT_ID included. *)
Theorem contact_frequency_keeps_rows (batch : list Deployment)
    (out : list ContactFrequency) :
  contact_frequency_run batch out -> Permutation batch (map cf_row out).
Proof. apply run_rows_perm. Qed.

Lemma contact_frequency_keeps_rows_witness :
  Permutation two_clients (map cf_row (df_contact_frequency two_clients)).
Proof.
  apply contact_frequency_keeps_rows, df_contact_frequency_run.
Defined.

(** ** Totals across the tables *)

Lemma Zsum_perm (l l' : list Z) : Permutation l l' -> Zsum l = Zsum l'.
Proof.
  unfold Zsum. induction 1; simpl; lia.
Qed.

Lemma Zsum_order_by {A : Type} (leb : A -> A -> bool) (f : A -> Z) (l : list A) :
  Zsum (map f (order_by leb l)) = Zsum (map f l).
Proof. apply Zsum_perm, Permutation_map. symmetry. apply order_by_perm. Qed.

(** X3: each of the grouped tables accounts for every deployment that
    carries a TACTIC_ID exactly once: the campaign total_deployments, the
    client total_contacts, the monthly deployments and, in every execution,
    the frequency-impact deployments_count each add up to the number of
    TACTIC_IDs in the batch. *)
Theorem deployments_counted_once (conf : SessionConf) (today : Z) (deployments : list Deployment) :
  Zsum (map Campaign.total_deployments (df_campaign_performance conf deployments))
  = count (map TACTIC_ID deployments) /\
  Zsum (map Engagement.total_contacts (df_client_engagement conf today deployments))
  = count (map TACTIC_ID deployments) /\
  Zsum (map Monthly.deployments (df_monthly_trends deployments))
  = count (map TACTIC_ID deployments) /\
  (forall contact_frequency,
     contact_frequency_run deployments contact_frequency ->
     Zsum (map FrequencyImpact.deployments_count
               (df_frequency_impact contact_frequency))
     = count (map TACTIC_ID deployments)).
Proof.
  repeat apply conj.
  - unfold df_campaign_performance. rewrite map_map. simpl.
    apply grouped_count_total.
  - unfold df_client_engagement. rewrite map_map. simpl.
    apply grouped_count_total.
  - unfold df_monthly_trends. rewrite Zsum_order_by, map_map. simpl.
    apply grouped_count_total.
  - intros cf Hrun. unfold df_frequency_impact.
    rewrite Zsum_order_by, map_map. simpl.
    rewrite (grouped_count_total Z.eq_dec contacts_last_30d
               (fun w => TACTIC_ID (cf_row w)) cf).
    rewrite <- (map_map cf_row TACTIC_ID). symmetry.
    apply count_map_perm. now apply run_rows_perm.
Qed.

Lemma deployments_counted_once_witness :
  Zsum (map Engagement.total_contacts (df_client_engagement ansi_off 40 two_clients)) = 5 /\
  Zsum (map FrequencyImpact.deployments_count
            (df_frequency_impact (df_contact_frequency two_clients))) = 5.
Proof.
  destruct (deployments_counted_once ansi_off 40 two_clients) as (_ & Hclients & _ & Himpact).
  split.
  - rewrite Hclients. vm_compute. reflexivity.
  - rewrite (Himpact _ (df_contact_frequency_run two_clients)).
    vm_compute. reflexivity.
Defined.

(** X4: df_client_engagement has one row per distinct CLIENT_ID of the
    batch, the null CLIENT_ID counting as one client, and so as many rows
    as the "Unique Clients" figure of the summary. *)
Theorem one_profile_per_client (conf : SessionConf) (today : Z) (deployments : list Deployment) :
  NoDup (map Engagement.client (df_client_engagement conf today deployments)) /\
  (forall c, In c (map Engagement.client (df_client_engagement conf today deployments))
             <-> In c (map CLIENT_ID deployments)) /\
  Z.of_nat (List.length (df_client_engagement conf today deployments))
  = Summary.unique_clients deployments.
Proof.
  assert (Hkeys : map Engagement.client (df_client_engagement conf today deployments)
                  = distinct option_string_dec (map CLIENT_ID deployments)).
  { unfold df_client_engagement. rewrite map_map. simpl.
    rewrite <- (group_by_keys option_string_dec CLIENT_ID deployments).
    reflexivity. }
  repeat apply conj.
  - rewrite Hkeys. apply distinct_NoDup.
  - intros c. rewrite Hkeys. split;
      [ apply distinct_incl | apply distinct_complete ].
  - unfold Summary.unique_clients. rewrite <- Hkeys. now rewrite length_map.
Qed.

(** ** Recency *)

Lemma values_In {A : Type} (col : list (option A)) (v : A) :
  In v (values col) <-> In (Some v) col.
Proof.
  induction col as [ | [ x | ] col IH ]; simpl; [ tauto | | ].
  - rewrite IH. split; intros [ H | H ]; auto; left; congruence.
  - rewrite IH. split; [ auto | intros [ H | H ]; [ discriminate | exact H ] ].
Qed.

Lemma values_perm {A : Type} (col col' : list (option A)) :
  Permutation col col' -> Permutation (values col) (values col').
Proof.
  induction 1 as [ | x col col' _ IH | x y col | col col' col'' _ IH1 _ IH2 ].
  - constructor.
  - destruct x; simpl; [ now constructor | exact IH ].
  - destruct x, y; simpl; try reflexivity. apply perm_swap.
  - now transitivity (values col').
Qed.

Lemma fold_max_greatest (vs : list Z) (v : Z) :
  In (fold_right Z.max v vs) (v :: vs) /\
  forall x, In x (v :: vs) -> x <= fold_right Z.max v vs.
Proof.
  induction vs as [ | a vs (IHin & IHle) ]; simpl.
  - split; [ now left | intros x [ <- | [] ]; lia ].
  - split.
    + destruct (Z.max_spec a (fold_right Z.max v vs)) as [ (_ & ->) | (_ & ->) ].
      * destruct IHin as [ H | H ]; [ now left | right; now right ].
      * right. now left.
    + intros x [ <- | [ <- | Hx ] ].
      * specialize (IHle v (or_introl eq_refl)). lia.
      * lia.
      * specialize (IHle x (or_intror Hx)). lia.
Qed.

Lemma fold_min_least (vs : list Z) (v : Z) :
  In (fold_right Z.min v vs) (v :: vs) /\
  forall x, In x (v :: vs) -> fold_right Z.min v vs <= x.
Proof.
  induction vs as [ | a vs (IHin & IHle) ]; simpl.
  - split; [ now left | intros x [ <- | [] ]; lia ].
  - split.
    + destruct (Z.min_spec a (fold_right Z.min v vs)) as [ (_ & ->) | (_ & ->) ].
      * right. now left.
      * destruct IHin as [ H | H ]; [ now left | right; now right ].
    + intros x [ <- | [ <- | Hx ] ].
      * specialize (IHle v (or_introl eq_refl)). lia.
      * lia.
      * specialize (IHle x (or_intror Hx)). lia.
Qed.

(** [max(col)] is the greatest and [min(col)] the least value present. *)
Lemma max_greatest (col : list (option Z)) :
  values col <> [] ->
  exists m, Sql.max col = Some m /\ In (Some m) col /\
            forall v, In (Some v) col -> v <= m.
Proof.
  intros Hne. unfold Sql.max.
  pose proof (values_In col) as Hin.
  destruct (values col) as [ | v vs ]; [ congruence | ].
  destruct (fold_max_greatest vs v) as (Hm & Hle).
  eexists. split; [ reflexivity | ]. split.
  - now apply Hin.
  - intros x Hx. apply Hle. now apply Hin.
Qed.

Lemma min_least (col : list (option Z)) :
  values col <> [] ->
  exists m, Sql.min col = Some m /\ In (Some m) col /\
            forall v, In (Some v) col -> m <= v.
Proof.
  intros Hne. unfold Sql.min.
  pose proof (values_In col) as Hin.
  destruct (values col) as [ | v vs ]; [ congruence | ].
  destruct (fold_min_least vs v) as (Hm & Hle).
  eexists. split; [ reflexivity | ]. split.
  - now apply Hin.
  - intros x Hx. apply Hle. now apply Hin.
Qed.

Lemma dated_values_nonempty (rows : list Deployment) :
  rows <> [] ->
  (forall r, In r rows -> DEPLOYMENT_DATE r <> None) ->
  values (map DEPLOYMENT_DATE rows) <> [].
Proof.
  destruct rows as [ | r rows ]; [ congruence | ]. intros _ Hdated. simpl.
  destruct (DEPLOYMENT_DATE r) eqn:E; [ discriminate | ].
  destruct (Hdated r (or_introl eq_refl) E).
Qed.



(** ** Days since the last contact *)

(** The rows scanned after a dated row [q]: each is numbered from [n] on
    and carries the distance to its predecessor, which is not negative. *)
Lemma scan_after (partition : list Deployment) :
  forall todo q dq n w,
    DEPLOYMENT_DATE q = Some dq ->
    StronglySorted (fun r s => by_date r s = true) (q :: todo) ->
    (forall r, In r todo -> DEPLOYMENT_DATE r <> None) ->
    In w (window_scan partition (Some q) n todo) ->
    n <= contact_number w /\
    exists d d',
      DEPLOYMENT_DATE (cf_row w) = Some d /\
      days_since_last_contact w = Some (d - d') /\ dq <= d' <= d.
Proof.
  induction todo as [ | r rest IH ]; intros q dq n w Eq Hsorted Hdated Hin;
    simpl in Hin; [ contradiction | ].
  inversion Hsorted as [ | ? ? Hrest Hq ]; subst.
  destruct (DEPLOYMENT_DATE r) as [ dr | ] eqn:Er;
    [ | destruct (Hdated r (or_introl eq_refl) Er) ].
  assert (Hqr : dq <= dr).
  { inversion Hq as [ | ? ? Hle _ ]; subst. unfold by_date in Hle.
    rewrite Eq, Er in Hle. simpl in Hle. lia. }
  destruct Hin as [ <- | Hin ].
  - simpl. split; [ lia | ]. exists dr, dq. rewrite Er, Eq. simpl.
    repeat split; lia.
  - destruct (IH r dr (n + 1) w Er Hrest
                (fun s Hs => Hdated s (or_intror Hs)) Hin)
      as (Hn & d & d' & Ed & Edays & Hd).
    split; [ lia | ]. exists d, d'. repeat split; try assumption; lia.
Qed.

(** X6: in every execution over the filtered batch, a record has a null
    days_since_last_contact exactly when it is the first of its client
    (contact_number 1); for every other record the value lies in [0, 548]. *)
Theorem days_since_last_contact_range (today : Z) (csv : list Deployment)
    (out : list ContactFrequency) (w : ContactFrequency) :
  contact_frequency_run (df_deployments today csv) out -> In w out ->
  (days_since_last_contact w = None <-> contact_number w = 1) /\
  (forall d, days_since_last_contact w = Some d -> 0 <= d <= 548).
Proof.
  intros Hrun Hin.
  destruct (contact_frequency_run_row _ _ _ Hrun Hin) as (c & p & (Hperm & Hsorted) & Hw).
  assert (Hbatch : forall r, In r p -> In r (df_deployments today csv)).
  { intros r Hr. apply (Permutation_in _ (Permutation_sym Hperm)) in Hr.
    now apply filter_In in Hr. }
  unfold window_rows in Hw. destruct p as [ | r rest ]; simpl in Hw; [ contradiction | ].
  destruct (df_deployments_dated _ _ _ (Hbatch r (or_introl eq_refl))) as (dr & Er & Hdr).
  destruct Hw as [ <- | Hw ].
  - simpl. rewrite Er. simpl. split; [ tauto | discriminate ].
  - destruct (scan_after (r :: rest) rest r dr (1 + 1) w Er Hsorted) as
      (Hn & d & d' & Ed & -> & Hd); [ | exact Hw | ].
    + intros s Hs. destruct (df_deployments_dated _ _ _ (Hbatch s (or_intror Hs)))
        as (ds & -> & _). discriminate.
    + destruct (window_scan_row _ _ _ _ _ Hw) as (Hrow & _).
      destruct (df_deployments_dated _ _ _ (Hbatch _ (or_intror Hrow)))
        as (dw & Edw & Hdw).
      assert (dw = d) by congruence. subst dw.
      split.
      * split; [ discriminate | lia ].
      * intros x Hx. inversion Hx; subst x. lia.
Qed.

Lemma days_since_last_contact_range_witness :
  exists w, In w (df_contact_frequency (df_deployments 40 three_contacts)) /\
    cf_row w = day40 /\ days_since_last_contact w = Some 35 /\
    0 <= 35 <= 548.
Proof.
  exists (nth 2 (df_contact_frequency (df_deployments 40 three_contacts))
                (mkContactFrequency day1 None 0 0 0 0)).
  assert (Hin : In (nth 2 (df_contact_frequency (df_deployments 40 three_contacts))
                          (mkContactFrequency day1 None 0 0 0 0))
                   (df_contact_frequency (df_deployments 40 three_contacts)))
    by (vm_compute; right; right; left; reflexivity).
  destruct (days_since_last_contact_range 40 three_contacts _ _
              (df_contact_frequency_run _) Hin) as (_ & Hrange).
  split; [ exact Hin | ]. split; [ vm_compute; reflexivity | ].
  split; [ vm_compute; reflexivity | ].
  apply Hrange. vm_compute. reflexivity.
Defined.

Lemma last_cons {A : Type} (l : list A) (a d : A) : last (a :: l) d = last l a.
Proof.
  revert a d. induction l as [ | b l IH ]; intros a d; [ reflexivity | ].
  change (last (a :: b :: l) d) with (last (b :: l) d).
  now rewrite (IH b d), (IH b a).
Qed.

(** The distances of the rows scanned after [q] add up to the distance from
    [q] to the last row. *)
Lemma scan_gaps_total (partition : list Deployment) :
  forall todo q dq n,
    DEPLOYMENT_DATE q = Some dq ->
    (forall r, In r todo -> DEPLOYMENT_DATE r <> None) ->
    Zsum (values (map days_since_last_contact
                      (window_scan partition (Some q) n todo)))
    = last (values (map DEPLOYMENT_DATE todo)) dq - dq.
Proof.
  induction todo as [ | r rest IH ]; intros q dq n Eq Hdated; simpl; [ lia | ].
  destruct (DEPLOYMENT_DATE r) as [ dr | ] eqn:Er;
    [ | destruct (Hdated r (or_introl eq_refl) Er) ].
  rewrite Eq. cbn [datediff values Zsum fold_right]. fold (Zsum).
  change (fold_right Z.add 0) with Zsum.
  rewrite (IH r dr (n + 1) Er (fun s Hs => Hdated s (or_intror Hs))).
  rewrite last_cons. lia.
Qed.

Lemma sorted_dates (p : list Deployment) :
  StronglySorted (fun r s => by_date r s = true) p ->
  (forall r, In r p -> DEPLOYMENT_DATE r <> None) ->
  StronglySorted Z.le (values (map DEPLOYMENT_DATE p)).
Proof.
  induction 1 as [ | a l Hl IH Ha ]; intros Hdated; simpl; [ constructor | ].
  destruct (DEPLOYMENT_DATE a) as [ da | ] eqn:Ea;
    [ | destruct (Hdated a (or_introl eq_refl) Ea) ].
  constructor; [ apply IH; intros s Hs; apply Hdated; now right | ].
  apply Forall_forall. intros v Hv.
  apply values_In, in_map_iff in Hv. destruct Hv as (s & Es & Hs).
  rewrite Forall_forall in Ha. specialize (Ha s Hs).
  unfold by_date in Ha. rewrite Ea, Es in Ha. simpl in Ha. lia.
Qed.

Lemma sorted_ends (l : list Z) (a : Z) :
  StronglySorted Z.le (a :: l) ->
  In (last l a) (a :: l) /\ forall v, In v (a :: l) -> a <= v <= last l a.
Proof.
  revert a. induction l as [ | b l IH ]; intros a Hsorted.
  - simpl. split; [ now left | intros v [ <- | [] ]; lia ].
  - inversion Hsorted as [ | ? ? Hrest Ha ]; subst.
    destruct (IH b Hrest) as (Hin & Hbounds).
    rewrite last_cons. split; [ now right | ].
    assert (Hab : a <= b) by (inversion Ha; assumption).
    intros v [ <- | Hv ].
    + specialize (Hbounds b (or_introl eq_refl)). lia.
    + specialize (Hbounds v Hv). lia.
Qed.

(** X7: for every client of the filtered batch, customer_lifetime_days of
    the engagement profile is the sum of the client's days_since_last_contact
    values in the contact-frequency table, whatever the arrangement of
    same-day contacts. *)
Theorem lifetime_is_sum_of_gaps (conf : SessionConf) (today : Z) (csv : list Deployment)
    (g : Engagement.row) (p : list Deployment) :
  In g (df_client_engagement conf today (df_deployments today csv)) ->
  window_order (client_partition (Engagement.client g) (df_deployments today csv)) p ->
  Engagement.customer_lifetime_days g
  = Some (Zsum (values (map days_since_last_contact (window_rows p)))).
Proof.
  intros Hin (Hperm & Hsorted).
  destruct (df_client_engagement_row _ _ _ _ Hin) as (rows & Hgroup & Hg).
  destruct (group_nonempty _ _ _ _ _ Hgroup) as (Hne & Hincl).
  destruct (group_by_rows _ _ _ _ _ Hgroup) as (Hrows & _).
  fold (client_partition (Engagement.client g) (df_deployments today csv)) in Hrows.
  rewrite <- Hrows in Hperm.
  assert (Hdated : forall r, In r rows -> DEPLOYMENT_DATE r <> None).
  { intros r Hr. destruct (df_deployments_dated _ _ _ (Hincl _ Hr)) as (d & -> & _).
    discriminate. }
  assert (Hdated' : forall r, In r p -> DEPLOYMENT_DATE r <> None).
  { intros r Hr. apply Hdated. now apply (Permutation_in _ (Permutation_sym Hperm)). }
  assert (Hsame : forall v, In (Some v) (map DEPLOYMENT_DATE rows)
                            <-> In v (values (map DEPLOYMENT_DATE p))).
  { intros v. rewrite values_In. split; apply Permutation_in, Permutation_map;
      [ exact Hperm | now symmetry ]. }
  destruct (max_greatest _ (dated_values_nonempty _ Hne Hdated)) as (l & El & Hl & Hmax).
  destruct (min_least _ (dated_values_nonempty _ Hne Hdated)) as (f & Ef & Hf & Hmin).
  pose proof (sorted_dates p Hsorted Hdated') as Hz.
  destruct p as [ | r rest ];
    [ apply Permutation_sym, Permutation_nil in Hperm; congruence | ].
  destruct (DEPLOYMENT_DATE r) as [ dr | ] eqn:Er;
    [ | destruct (Hdated' r (or_introl eq_refl) Er) ].
  unfold window_rows. cbn [window_scan map days_since_last_contact].
  rewrite Er. cbn [datediff values].
  rewrite (scan_gaps_total (r :: rest) rest r dr (1 + 1) Er
             (fun s Hs => Hdated' s (or_intror Hs))).
  cbn [map values] in Hz, Hsame. rewrite Er in Hz, Hsame. cbn [values] in Hz, Hsame.
  destruct (sorted_ends _ _ Hz) as (Hlast & Hbounds).
  assert (l = last (values (map DEPLOYMENT_DATE rest)) dr).
  { apply Z.le_antisymm.
    - apply Hbounds. now apply Hsame.
    - apply Hmax. now apply Hsame. }
  assert (f = dr).
  { apply Z.le_antisymm.
    - apply Hmin. apply Hsame. now left.
    - apply Hbounds. now apply Hsame. }
  subst l f. rewrite Hg. simpl. rewrite El, Ef. reflexivity.
Qed.

Lemma lifetime_is_sum_of_gaps_witness :
  exists g,
    In g (df_client_engagement ansi_off 40 (df_deployments 40 three_contacts)) /\
    Engagement.customer_lifetime_days g = Some (4 + 35).
Proof.
  exists (nth 0 (df_client_engagement ansi_off 40 (df_deployments 40 three_contacts))
              (Engagement.aggregate ansi_off 0 None [])).
  assert (Hin : In (nth 0 (df_client_engagement ansi_off 40 (df_deployments 40 three_contacts))
                          (Engagement.aggregate ansi_off 0 None []))
                   (df_client_engagement ansi_off 40 (df_deployments 40 three_contacts)))
    by (vm_compute; left; reflexivity).
  split; [ exact Hin | ].
  rewrite (lifetime_is_sum_of_gaps ansi_off 40 three_contacts _ three_contacts Hin).
  - vm_compute. reflexivity.
  - split; [ apply Permutation_refl | repeat constructor ].
Defined.

(** ** The engagement score *)

(** X8: for a client with at least one TACTIC_ID the engagement score
    never ends in a division fault, is null exactly when the client has no
    RESPONSE_FLAG, no CONVERSION_FLAG or no REVENUE value at all, and
    otherwise is 0.3 * response_rate + 0.5 * conversion_rate
    + 0.2 * (total_revenue / total_contacts).  For a client without any
    TACTIC_ID it is never a number: a division fault in a session with
    ANSI mode on when the client has a RESPONSE_FLAG or CONVERSION_FLAG
    value, and null otherwise. *)
Theorem engagement_score_defined (conf : SessionConf) (today : Z)
    (deployments : list Deployment) (g : Engagement.row) :
  In g (df_client_engagement conf today deployments) ->
  (Engagement.total_contacts g <> 0 ->
   Engagement.engagement_score g <> DivideByZero /\
   (Engagement.engagement_score g = Value None <->
    Engagement.total_responses g = None \/
    Engagement.total_conversions g = None \/ Engagement.total_revenue g = None) /\
   (forall responses conversions revenue,
      Engagement.total_responses g = Some responses ->
      Engagement.total_conversions g = Some conversions ->
      Engagement.total_revenue g = Some revenue ->
      Engagement.engagement_score g
      = Value (Some
          (inject_Z responses / inject_Z (Engagement.total_contacts g) * (3 # 10)
           + inject_Z conversions / inject_Z (Engagement.total_contacts g) * (5 # 10)
           + revenue / inject_Z (Engagement.total_contacts g) * (2 # 10))%Q))) /\
  (Engagement.total_contacts g = 0 ->
   (forall q, Engagement.engagement_score g <> Value (Some q)) /\
   (Engagement.engagement_score g = DivideByZero <->
    spark_sql_ansi_enabled conf = true /\
    (Engagement.total_responses g <> None \/
     Engagement.total_conversions g <> None)) /\
   (Engagement.engagement_score g <> DivideByZero ->
    Engagement.engagement_score g = Value None)).
Proof.
  intros Hin. destruct (df_client_engagement_row _ _ _ _ Hin) as (rows & _ & ->).
  cbn [Engagement.total_contacts Engagement.total_responses
       Engagement.total_conversions Engagement.total_revenue
       Engagement.engagement_score Engagement.aggregate].
  unfold divide, to_double. cbn [option_map]. rewrite Qeq_bool_inject_Z_0.
  destruct (count (map TACTIC_ID rows) =? 0) eqn:E;
    [ apply Z.eqb_eq in E | apply Z.eqb_neq in E ];
    destruct (sum (map RESPONSE_FLAG rows)) as [ s | ];
    destruct (sum (map CONVERSION_FLAG rows)) as [ t | ];
    destruct (sumQ (map REVENUE rows)) as [ v | ];
    destruct (spark_sql_ansi_enabled conf); simpl;
    (split; [ intros Hne | intros Hzero ]; try contradiction);
    repeat match goal with
           | |- _ /\ _ => split
           | |- _ <-> _ => split
           end;
    intros;
    repeat match goal with
           | H : _ /\ _ |- _ => destruct H
           | H : _ \/ _ |- _ => destruct H
           end;
    try discriminate; try congruence; auto;
    (split; [ reflexivity | first [ left; discriminate | right; discriminate ] ]).
Qed.

Lemma engagement_score_defined_witness :
  (exists g,
     In g (df_client_engagement ansi_on 40 (df_deployments 40 three_contacts)) /\
     Engagement.engagement_score g
     = Value (Some (inject_Z 1 / inject_Z 3 * (3 # 10)
                    + inject_Z 0 / inject_Z 3 * (5 # 10)
                    + (15 # 1) / inject_Z 3 * (2 # 10))%Q)) /\
  (exists g,
     In g (df_client_engagement ansi_on 40 (df_deployments 40 lone_unnamed)) /\
     Engagement.engagement_score g = DivideByZero).
Proof.
  split.
  - exists (nth 0 (df_client_engagement ansi_on 40 (df_deployments 40 three_contacts))
                (Engagement.aggregate ansi_on 0 None [])).
    assert (Hin : In (nth 0 (df_client_engagement ansi_on 40 (df_deployments 40 three_contacts))
                            (Engagement.aggregate ansi_on 0 None []))
                     (df_client_engagement ansi_on 40 (df_deployments 40 three_contacts)))
      by (vm_compute; left; reflexivity).
    split; [ exact Hin | ].
    destruct (engagement_score_defined _ _ _ _ Hin) as (Hsome & _).
    destruct Hsome as (_ & _ & Hscore); [ vm_compute; discriminate | ].
    apply (Hscore 1 0 (15 # 1)%Q); vm_compute; reflexivity.
  - exists (nth 0 (df_client_engagement ansi_on 40 (df_deployments 40 lone_unnamed))
                (Engagement.aggregate ansi_on 0 None [])).
    assert (Hin : In (nth 0 (df_client_engagement ansi_on 40 (df_deployments 40 lone_unnamed))
                            (Engagement.aggregate ansi_on 0 None []))
                     (df_client_engagement ansi_on 40 (df_deployments 40 lone_unnamed)))
      by (vm_compute; left; reflexivity).
    split; [ exact Hin | ].
    destruct (engagement_score_defined _ _ _ _ Hin) as (_ & Hnone).
    destruct Hnone as (_ & Hfault & _); [ vm_compute; reflexivity | ].
    apply Hfault. split; [ reflexivity | ]. left. vm_compute. discriminate.
Defined.

(** ** Order of the frequency-impact table *)

Lemma sorted_map_le {A : Type} (f : A -> Z) (l : list A) :
  StronglySorted (fun a b => (f a <=? f b) = true) l ->
  StronglySorted Z.le (map f l).
Proof.
  induction 1 as [ | a l _ IH Ha ]; simpl; constructor; [ exact IH | ].
  apply Forall_forall. intros v Hv. apply in_map_iff in Hv.
  destruct Hv as (b & <- & Hb). rewrite Forall_forall in Ha.
  specialize (Ha b Hb). lia.
Qed.

Lemma sorted_nodup_strict (l : list Z) :
  StronglySorted Z.le l -> NoDup l -> StronglySorted Z.lt l.
Proof.
  induction 1 as [ | a l _ IH Ha ]; intros Hnodup; constructor.
  - apply IH. now inversion Hnodup.
  - inversion Hnodup as [ | ? ? Hfresh _ ]; subst.
    apply Forall_forall. intros v Hv. rewrite Forall_forall in Ha.
    specialize (Ha v Hv).
    assert (a <> v) by (intros ->; contradiction). lia.
Qed.

(** X9: df_frequency_impact lists each contacts_last_30d value of the
    contact-frequency table once, in strictly ascending order. *)
Theorem frequency_impact_ascending (contact_frequency : list ContactFrequency) :
  StronglySorted Z.lt
    (map FrequencyImpact.bucket (df_frequency_impact contact_frequency)) /\
  (forall b, In b (map FrequencyImpact.bucket (df_frequency_impact contact_frequency))
             <-> In b (map contacts_last_30d contact_frequency)).
Proof.
  assert (Hperm : Permutation
            (distinct Z.eq_dec (map contacts_last_30d contact_frequency))
            (map FrequencyImpact.bucket (df_frequency_impact contact_frequency))).
  { unfold df_frequency_impact.
    rewrite <- (group_by_keys Z.eq_dec contacts_last_30d contact_frequency).
    etransitivity; [ | apply Permutation_map, order_by_perm ].
    rewrite map_map. simpl. reflexivity. }
  split.
  - apply sorted_nodup_strict.
    + apply sorted_map_le. unfold df_frequency_impact. apply order_by_sorted.
      * intros a b. destruct (Z.leb_spec (FrequencyImpact.bucket a) (FrequencyImpact.bucket b));
          [ now left | right; lia ].
      * intros a b c Hab Hbc. lia.
    + eapply Permutation_NoDup; [ exact Hperm | apply distinct_NoDup ].
  - intros b. split; intros Hb.
    + apply distinct_incl with Z.eq_dec.
      now apply (Permutation_in _ (Permutation_sym Hperm)).
    + apply (Permutation_in _ Hperm). now apply distinct_complete.
Qed.

(** ** Conversions among responses *)

Lemma Zsum_pointwise_le {A : Type} (f g : A -> option Z) (rows : list A) :
  (forall r, In r rows -> is_0_or_1 (f r) /\ is_0_or_1 (g r) /\
                          (f r = Some 1 -> g r = Some 1)) ->
  Zsum (values (map f rows)) <= Zsum (values (map g rows)).
Proof.
  unfold Zsum. induction rows as [ | r rows IH ]; intros Hall; [ simpl; lia | ].
  assert (IH' := IH (fun s Hs => Hall s (or_intror Hs))).
  destruct (Hall r (or_introl eq_refl)) as (Hf & Hg & Himp).
  cbn [map values].
  destruct Hf as [ Ef | Ef ], Hg as [ Eg | Eg ]; rewrite Ef, Eg;
    cbn [values fold_right]; try lia.
  specialize (Himp Ef). congruence.
Qed.

(** X11: over 0/1 flags, when every converted record is also a responded
    record, each campaign has 0 <= total_conversions <= total_responses,
    and its response_to_conversion_rate lies in [0, 100] when there is a
    response; when there is none the division is 0 / 0, null in a session
    with ANSI mode off and a divide-by-zero fault in one with ANSI mode
    on. *)
Theorem conversions_among_responses (conf : SessionConf)
    (deployments : list Deployment) (g : Campaign.row) :
  (forall r, In r deployments ->
     is_0_or_1 (CONVERSION_FLAG r) /\ is_0_or_1 (RESPONSE_FLAG r) /\
     (CONVERSION_FLAG r = Some 1 -> RESPONSE_FLAG r = Some 1)) ->
  In g (df_campaign_performance conf deployments) ->
  exists conversions responses,
    Campaign.total_conversions g = Some conversions /\
    Campaign.total_responses g = Some responses /\
    0 <= conversions <= responses /\
    (responses = 0 ->
     conversions = 0 /\
     Campaign.response_to_conversion_rate g
     = if spark_sql_ansi_enabled conf then DivideByZero else Value None) /\
    (responses <> 0 ->
     exists q, Campaign.response_to_conversion_rate g = Value (Some q) /\
               (0 <= q <= 100 # 1)%Q).
Proof.
  intros Hflags Hin.
  destruct (df_campaign_performance_row _ _ _ Hin) as (rows & Hgroup & ->).
  destruct (group_nonempty _ _ _ _ _ Hgroup) as (Hne & Hincl).
  assert (Hrows : forall r, In r rows ->
            is_0_or_1 (CONVERSION_FLAG r) /\ is_0_or_1 (RESPONSE_FLAG r) /\
            (CONVERSION_FLAG r = Some 1 -> RESPONSE_FLAG r = Some 1))
    by (intros r Hr; apply Hflags, Hincl, Hr).
  assert (Hc : forall r, In r rows -> is_0_or_1 (CONVERSION_FLAG r))
    by (intros r Hr; apply (Hrows r Hr)).
  assert (Hr : forall r, In r rows -> is_0_or_1 (RESPONSE_FLAG r))
    by (intros r Hr'; apply (Hrows r Hr')).
  pose proof (Zsum_pointwise_le CONVERSION_FLAG RESPONSE_FLAG rows Hrows) as Hle.
  destruct (values_all_present CONVERSION_FLAG rows Hc) as (_ & Hc0 & _).
  exists (Zsum (values (map CONVERSION_FLAG rows))),
         (Zsum (values (map RESPONSE_FLAG rows))).
  simpl. rewrite !sum_is_total by assumption.
  split; [ reflexivity | ]. split; [ reflexivity | ]. split; [ lia | ].
  unfold divide, to_double. simpl. rewrite Qeq_bool_inject_Z_0.
  set (c := Zsum (values (map CONVERSION_FLAG rows))) in *.
  set (s := Zsum (values (map RESPONSE_FLAG rows))) in *.
  split.
  - intros Hs. split; [ lia | ]. rewrite Hs. simpl.
    now destruct (spark_sql_ansi_enabled conf).
  - intros Hs. replace (s =? 0) with false by (symmetry; now apply Z.eqb_neq).
    simpl. eexists. split; [ reflexivity | ].
    apply percent_of_fraction.
    assert (Hpos : (0 < inject_Z s)%Q)
      by (change 0%Q with (inject_Z 0); rewrite <- Zlt_Qlt; lia).
    split.
    + apply Qle_shift_div_l; [ exact Hpos | ].
      rewrite Qmult_0_l. change 0%Q with (inject_Z 0). rewrite <- Zle_Qle. lia.
    + apply Qle_shift_div_r; [ exact Hpos | ].
      rewrite Qmult_1_l. rewrite <- Zle_Qle. lia.
Qed.

Lemma conversions_among_responses_witness :
  exists g conversions responses,
    In g (df_campaign_performance ansi_off two_clients) /\
    Campaign.total_conversions g = Some conversions /\
    Campaign.total_responses g = Some responses /\
    0 <= conversions <= responses.
Proof.
  assert (Hin : In (nth 0 (df_campaign_performance ansi_off two_clients)
                          (Campaign.aggregate ansi_off (None, None, None, None) []))
                   (df_campaign_performance ansi_off two_clients))
    by (vm_compute; left; reflexivity).
  assert (Hflags : forall r, In r two_clients ->
            is_0_or_1 (CONVERSION_FLAG r) /\ is_0_or_1 (RESPONSE_FLAG r) /\
            (CONVERSION_FLAG r = Some 1 -> RESPONSE_FLAG r = Some 1)).
  { intros r [ <- | [ <- | [ <- | [ <- | [ <- | [] ] ] ] ] ];
      (split; [ | split ]);
      try (now left); try (now right); try reflexivity; discriminate. }
  destruct (conversions_among_responses ansi_off two_clients _ Hflags Hin)
    as (c & s & Hc & Hs & Hle & _).
  eexists. exists c, s. split; [ exact Hin | ]. auto.
Defined.

(** ** The executive summary *)

Lemma values_nil_iff {A B : Type} (col : A -> option B) (l : list A) :
  values (map col l) = [] <-> (forall r, In r l -> col r = None).
Proof.
  rewrite <- count_none_present. unfold count.
  destruct (values (map col l)); simpl List.length; split; (discriminate || reflexivity || lia).
Qed.

Lemma avg_none_iff (col : list (option Z)) : avg col = None <-> values col = [].
Proof. unfold avg. destruct (values col); split; (discriminate || reflexivity). Qed.

Lemma sumQ_none_iff (col : list (option Q)) : sumQ col = None <-> values col = [].
Proof. unfold sumQ. destruct (values col); split; (discriminate || reflexivity). Qed.

(** X12: formatting the key metrics of the executive summary raises
    TypeError exactly when the batch has no RESPONSE_FLAG, no
    CONVERSION_FLAG or no REVENUE value at all; so it raises whenever no
    line of the CSV falls into the 548 days of the analysis. *)
Theorem executive_summary_type_error (today : Z) (csv : list Deployment) :
  (forall deployments,
     Summary.executive_summary deployments = TypeError <->
     (forall r, In r deployments -> RESPONSE_FLAG r = None) \/
     (forall r, In r deployments -> CONVERSION_FLAG r = None) \/
     (forall r, In r deployments -> REVENUE r = None)) /\
  ((forall r, In r csv ->
      between (DEPLOYMENT_DATE r) (analysis_start_date today) today = false) ->
   Summary.executive_summary (df_deployments today csv) = TypeError).
Proof.
  assert (Hiff : forall deployments,
     Summary.executive_summary deployments = TypeError <->
     (forall r, In r deployments -> RESPONSE_FLAG r = None) \/
     (forall r, In r deployments -> CONVERSION_FLAG r = None) \/
     (forall r, In r deployments -> REVENUE r = None)).
  { intros deployments.
    rewrite <- !values_nil_iff, <- !avg_none_iff, <- sumQ_none_iff.
    unfold Summary.executive_summary, Summary.overall_response_rate,
      Summary.overall_conversion_rate, Summary.total_revenue, format_float.
    destruct (avg (map RESPONSE_FLAG deployments));
      destruct (avg (map CONVERSION_FLAG deployments));
      destruct (sumQ (map REVENUE deployments)); simpl;
      split; try discriminate; auto;
      intros [ H | [ H | H ] ]; discriminate H. }
  split; [ exact Hiff | ].
  intros Hstale. apply Hiff. left. intros r Hr.
  unfold df_deployments in Hr. apply filter_In in Hr. destruct Hr as (Hr & Hin).
  rewrite (Hstale r Hr) in Hin. discriminate.
Qed.

Lemma executive_summary_type_error_witness :
  Summary.executive_summary (df_deployments 1000 stale_contacts) = TypeError.
Proof.
  destruct (executive_summary_type_error 1000 stale_contacts) as (_ & Hstale).
  apply Hstale.
  intros r [ <- | [ <- | [] ] ]; vm_compute; reflexivity.
Defined.

(** ** Rolling counts and contact numbers *)

(** The contact number of a row is its position in the arrangement. *)
Lemma scan_position (partition : list Deployment) (w : ContactFrequency) :
  forall todo done prev n,
    n = Z.of_nat (List.length done) + 1 ->
    In w (window_scan partition prev n todo) ->
    exists before after,
      done ++ todo = before ++ cf_row w :: after /\
      contact_number w = Z.of_nat (List.length before) + 1.
Proof.
  induction todo as [ | r rest IH ]; intros done prev n Hn Hin; simpl in Hin;
    [ contradiction | ].
  destruct Hin as [ <- | Hin ].
  - exists done, rest. simpl. auto.
  - destruct (IH (done ++ [r]) (Some r) (n + 1)) as (before & after & Heq & Hnum).
    + rewrite length_app. simpl List.length. lia.
    + exact Hin.
    + exists before, after. rewrite <- Heq, <- app_assoc. simpl. auto.
Qed.

Lemma sorted_around {A : Type} (R : A -> A -> Prop) (l1 l2 : list A) (a : A) :
  StronglySorted R (l1 ++ a :: l2) ->
  Forall (fun x => R x a) l1 /\ Forall (R a) l2.
Proof.
  induction l1 as [ | x l1 IH ]; simpl; intros Hsorted;
    inversion Hsorted as [ | ? ? Hrest Hx ]; subst.
  - split; [ constructor | assumption ].
  - destruct (IH Hrest) as (Hbefore & Hafter). split; [ | exact Hafter ].
    constructor; [ | exact Hbefore ].
    rewrite Forall_forall in Hx. apply Hx. apply in_or_app. right. now left.
Qed.

Lemma filter_all {A : Type} (f : A -> bool) (l : list A) :
  Forall (fun x => f x = true) l -> filter f l = l.
Proof.
  induction 1 as [ | x l Hx _ IH ]; simpl; [ reflexivity | ].
  now rewrite Hx, IH.
Qed.

Lemma filter_none {A : Type} (f : A -> bool) (l : list A) :
  Forall (fun x => f x = false) l -> filter f l = [].
Proof.
  induction 1 as [ | x l Hx _ IH ]; simpl; [ reflexivity | ].
  now rewrite Hx, IH.
Qed.

Lemma frame_is_history (n today : Z) (csv : list Deployment) (r s : Deployment) :
  n <= - 548 ->
  In r (df_deployments today csv) -> In s (df_deployments today csv) ->
  in_range_frame n 0 r s = date_leb (DEPLOYMENT_DATE s) (DEPLOYMENT_DATE r).
Proof.
  intros Hn Hr Hs.
  destruct (df_deployments_dated _ _ _ Hr) as (d & Ed & Hd).
  destruct (df_deployments_dated _ _ _ Hs) as (e & Ee & He).
  unfold in_range_frame. rewrite Ed, Ee. simpl.
  destruct (e <=? d) eqn:E; lia.
Qed.

(** X13: over the filtered batch, when every record carries a TACTIC_ID,
    the rolling count of a record is at least the number of contacts
    numbered before it, contacts_last_30d >= contact_number - 1, in every
    execution; and when no two contacts of the client share a
    deployment_date it is exactly contact_number - 1. *)
Theorem rolling_count_is_contact_number (today : Z) (csv : list Deployment)
    (out : list ContactFrequency) (w : ContactFrequency) :
  contact_frequency_run (df_deployments today csv) out -> In w out ->
  (forall r, In r (df_deployments today csv) -> TACTIC_ID r <> None) ->
  contact_number w - 1 <= contacts_last_30d w /\
  (NoDup (map DEPLOYMENT_DATE
            (client_partition (CLIENT_ID (cf_row w)) (df_deployments today csv))) ->
   contacts_last_30d w = contact_number w - 1).
Proof.
  intros Hrun Hin Hnamed.
  destruct (contact_frequency_run_row _ _ _ Hrun Hin)
    as (c & p & (Hperm & Hsorted) & Hw).
  assert (Hbatch : forall r, In r p -> In r (df_deployments today csv) /\ CLIENT_ID r = c).
  { intros r Hr. apply (Permutation_in _ (Permutation_sym Hperm)) in Hr.
    apply filter_In in Hr. destruct Hr as (Hr & Hc).
    apply key_is_true in Hc. auto. }
  destruct (window_scan_row p w p None 1 Hw) as (Hrow & Hcount & _).
  destruct (scan_position p w p [] None 1 eq_refl Hw) as (before & after & Hp & Hnum).
  simpl in Hp.
  set (r := cf_row w) in *.
  set (older := fun s => date_leb (DEPLOYMENT_DATE s) (DEPLOYMENT_DATE r)).
  assert (Hlast : contacts_last_30d w
                  = Z.of_nat (List.length (filter older p)) - 1).
  { rewrite Hcount. unfold count_over, count_over_range. cbn [window_client_30d
      range_start range_end]. f_equal.
    rewrite (filter_ext_in (in_range_frame (- 30 * 86400) 0 r) older).
    - apply count_all_present. intros s Hs. apply filter_In in Hs.
      apply Hnamed, Hbatch, Hs.
    - intros s Hs. apply (frame_is_history _ today csv); [ lia | | ];
        now apply Hbatch. }
  rewrite Hp in Hsorted. destruct (sorted_around _ _ _ _ Hsorted) as (Hbefore & Hafter).
  assert (Hself : older r = true).
  { unfold older. destruct (df_deployments_dated _ _ _ (proj1 (Hbatch r Hrow)))
      as (d & -> & _). simpl. lia. }
  rewrite Hlast, Hnum, Hp, filter_app. cbn [filter]. rewrite Hself.
  rewrite (filter_all older before) by exact Hbefore.
  rewrite length_app. cbn [List.length].
  split; [ lia | ].
  intros Hnodup.
  rewrite (filter_none older after); [ simpl List.length; lia | ].
  assert (Hdates : NoDup (map DEPLOYMENT_DATE (before ++ r :: after))).
  { rewrite <- Hp. eapply Permutation_NoDup; [ apply Permutation_map, Hperm | ].
    destruct (Hbatch r Hrow) as (_ & <-). exact Hnodup. }
  rewrite map_app in Hdates. simpl in Hdates. apply NoDup_remove_2 in Hdates.
  rewrite Forall_forall in Hafter |- *. intros s Hs.
  destruct (older s) eqn:E; [ | reflexivity ].
  exfalso. apply Hdates. apply in_or_app. right.
  rewrite (date_leb_antisym _ _ (Hafter s Hs) E). now apply in_map.
Qed.

Lemma rolling_count_is_contact_number_witness :
  exists w, In w (df_contact_frequency (df_deployments 40 three_contacts)) /\
    cf_row w = day40 /\ contact_number w = 3 /\
    contacts_last_30d w = contact_number w - 1.
Proof.
  exists (nth 2 (df_contact_frequency (df_deployments 40 three_contacts))
                (mkContactFrequency day1 None 0 0 0 0)).
  assert (Hin : In (nth 2 (df_contact_frequency (df_deployments 40 three_contacts))
                          (mkContactFrequency day1 None 0 0 0 0))
                   (df_contact_frequency (df_deployments 40 three_contacts)))
    by (vm_compute; right; right; left; reflexivity).
  destruct (rolling_count_is_contact_number 40 three_contacts _ _
              (df_contact_frequency_run _) Hin) as (_ & Hexact).
  { intros r Hr. vm_compute in Hr.
    destruct Hr as [ <- | [ <- | [ <- | [] ] ] ]; discriminate. }
  split; [ exact Hin | ]. split; [ vm_compute; reflexivity | ].
  split; [ vm_compute; reflexivity | ].
  apply Hexact. vm_compute.
  repeat constructor; simpl; intuition discriminate.
Defined.

(** ** Order of the monthly table *)








(** ** Unique clients *)

Lemma unique_values_bound (rows deployments : list Deployment) :
  incl rows deployments ->
  Z.of_nat (List.length (distinct string_dec (values (map CLIENT_ID rows))))
  <= Summary.unique_clients deployments /\
  (Z.of_nat (List.length (distinct string_dec (values (map CLIENT_ID rows)))) = 0
   <-> forall r, In r rows -> CLIENT_ID r = None).
Proof.
  intros Hincl. split.
  - unfold Summary.unique_clients. apply inj_le.
    rewrite <- (length_map (@Some string)).
    apply NoDup_incl_length.
    + apply Finite.Injective_map_NoDup; [ intros x y; congruence | apply distinct_NoDup ].
    + intros x Hx. apply in_map_iff in Hx. destruct Hx as (v & <- & Hv).
      apply distinct_incl, values_In, in_map_iff in Hv.
      destruct Hv as (r & Er & Hr).
      apply distinct_complete. rewrite <- Er. apply in_map. now apply Hincl.
  - rewrite <- values_nil_iff.
    destruct (values (map CLIENT_ID rows)) as [ | v vs ]; simpl.
    + tauto.
    + split; [ lia | discriminate ].
Qed.

(** X15: the unique_clients of a campaign group and of a monthly group
    never exceed the "Unique Clients" figure of the summary, and are 0
    exactly when no record of the group carries a CLIENT_ID. *)
Theorem unique_clients_bounded (conf : SessionConf) (deployments : list Deployment) :
  (forall g, In g (df_campaign_performance conf deployments) ->
     Campaign.unique_clients g <= Summary.unique_clients deployments /\
     (Campaign.unique_clients g = 0 <->
      forall r, In r deployments -> Campaign.key_of r = Campaign.group g ->
                CLIENT_ID r = None)) /\
  (forall m, In m (df_monthly_trends deployments) ->
     Monthly.unique_clients m <= Summary.unique_clients deployments /\
     (Monthly.unique_clients m = 0 <->
      forall r, In r deployments -> Monthly.key_of r = Monthly.group m ->
                CLIENT_ID r = None)).
Proof.
  split.
  - intros g Hg. destruct (df_campaign_performance_row _ _ _ Hg) as (rows & Hgroup & ->).
    destruct (group_nonempty _ _ _ _ _ Hgroup) as (_ & Hincl).
    destruct (unique_values_bound rows deployments Hincl) as (Hle & Hzero).
    simpl. split; [ exact Hle | ]. rewrite Hzero.
    pose proof (fun r => group_by_member Campaign.key_dec Campaign.key_of
                           deployments _ rows r Hgroup) as Hmem.
    simpl in Hmem. split.
    + intros Hnone r Hr Hk. apply Hnone. now apply Hmem.
    + intros Hnone r Hr. apply Hmem in Hr. now apply Hnone.
  - intros m Hm. unfold df_monthly_trends in Hm.
    apply order_by_In, in_map_iff in Hm. destruct Hm as ((k & rows) & <- & Hgroup).
    destruct (group_nonempty _ _ _ _ _ Hgroup) as (_ & Hincl).
    destruct (unique_values_bound rows deployments Hincl) as (Hle & Hzero).
    simpl. split; [ exact Hle | ]. rewrite Hzero.
    pose proof (fun r => group_by_member Monthly.key_dec Monthly.key_of
                           deployments _ rows r Hgroup) as Hmem.
    split.
    + intros Hnone r Hr Hk. apply Hnone. now apply Hmem.
    + intros Hnone r Hr. apply Hmem in Hr. now apply Hnone.
Qed.

(** ** Campaigns in the summary and in the table *)

(** X17: the campaign table has at least as many rows as the "Total
    Campaigns" figure of the summary (a CAMPAIGN_ID with two names,
    channels or offer types has a row for each) and at most as many as
    there are deployments. *)
Theorem campaign_rows_between (conf : SessionConf) (deployments : list Deployment) :
  Summary.total_campaigns deployments
  <= Z.of_nat (List.length (df_campaign_performance conf deployments))
  <= Summary.total_deployments deployments.
Proof.
  unfold Summary.total_campaigns, Summary.total_deployments, df_campaign_performance.
  rewrite length_map.
  rewrite <- (length_map fst (group_by Campaign.key_dec Campaign.key_of deployments)).
  rewrite group_by_keys. split; apply inj_le.
  - rewrite <- (length_map (fun k : Campaign.key => fst (fst (fst k)))
                           (distinct Campaign.key_dec (map Campaign.key_of deployments))).
    apply NoDup_incl_length; [ apply distinct_NoDup | ].
    intros c Hc. apply distinct_incl, in_map_iff in Hc.
    destruct Hc as (r & <- & Hr). apply in_map_iff.
    exists (Campaign.key_of r). split; [ reflexivity | ].
    apply distinct_complete. now apply in_map.
  - rewrite <- (length_map Campaign.key_of deployments).
    apply NoDup_incl_length; [ apply distinct_NoDup | ].
    intros k. apply distinct_incl.
Qed.

Lemma unique_clients_bounded_witness :
  exists g, In g (df_campaign_performance ansi_off two_clients) /\
    Campaign.unique_clients g = 2 /\
    Campaign.unique_clients g <= Summary.unique_clients two_clients.
Proof.
  assert (Hin : In (nth 0 (df_campaign_performance ansi_off two_clients)
                          (Campaign.aggregate ansi_off (None, None, None, None) []))
                   (df_campaign_performance ansi_off two_clients))
    by (vm_compute; left; reflexivity).
  destruct (unique_clients_bounded ansi_off two_clients) as (Hcampaign & _).
  destruct (Hcampaign _ Hin) as (Hle & _).
  eexists. split; [ exact Hin | ]. split; [ vm_compute; reflexivity | exact Hle ].
Defined.
